(** * edbo.bro: the Bayesian-optimization driver [BO]

    A shallow embedding of [src/edbo/bro.py].  The driver is a Python
    object whose methods mutate [self], the objective store [self.obj]
    and one process-wide switch (gpytorch's fast-computation setting),
    and whose calls into the sibling modules ([objective], [Init],
    [acquisition], the surrogate models) may raise.  A Python exception
    leaves every mutation done before it in place, so the methods are
    embedded in a state-and-error monad whose state survives a failure. *)

From Stdlib Require Import List String Ascii ZArith Bool Arith Lia.
From Stdlib Require Import Permutation Sorted.
Import ListNotations.
Open Scope string_scope.
Open Scope list_scope.

(** ** Python values and exceptions *)

(** [simulate]'s [fast_comp] argument is documented as "bool, int". *)
Inductive pyval : Type :=
| PyBool (b : bool)
| PyInt (z : Z).

(** Python's [bool] is a subclass of [int]: [True] is 1 and [False] is 0. *)
Definition py_int (v : pyval) : Z :=
  match v with
  | PyBool true => 1
  | PyBool false => 0
  | PyInt z => z
  end.

(** [a == b] on booleans and integers. *)
Definition py_eq (a b : pyval) : bool := Z.eqb (py_int a) (py_int b).

(** [a < n] for a length [n]. *)
Definition py_lt_len (a : pyval) (n : nat) : bool := Z.ltb (py_int a) (Z.of_nat n).

(** Truth value of a [pyval] ([bool(v)]). *)
Definition py_truth (v : pyval) : bool := negb (Z.eqb (py_int v) 0).

(** The error taxonomy of the optimizer, and the built-in Python
    exceptions the driver itself can provoke. *)
Inductive error : Type :=
| MissingDomainError
| MissingObjectiveError
| EmptyDataError
| FitError
| InitializationError
| InsufficientCandidatesError
| NoProposalError
| TypeError
| AttributeError
| KeyError.

Inductive result (A : Type) : Type :=
| Ok (a : A)
| Err (e : error).
Arguments Ok {A} a.
Arguments Err {A} e.

(** [pat in s] on Python strings. *)
Fixpoint str_in (pat s : string) : bool :=
  String.prefix pat s ||
  match s with
  | EmptyString => false
  | String _ s' => str_in pat s'
  end.

(** ** The types the driver handles but never inspects *)

Class Types : Type := {
  config : Type;       (* a domain point: one row of the domain table *)
  num : Type;          (* a float / 0-d tensor *)
  num_leb : num -> num -> bool;   (* the order of outcomes *)
  prior_dist : Type;   (* a gpytorch prior object such as GammaPrior(2.0, 0.2) *)
  model_class : Type;  (* a surrogate model type such as GP_Model *)
  model_inst : Type;   (* a constructed surrogate model *)
  scaler : Type;       (* the standardizer of the objective store *)
  rng : Type           (* hidden state of the random generators *)
}.

Section DataModel.
Context `{T : Types}.

(** An observation is a configuration with its outcome; a data frame of
    experiments is a list of configurations. *)
Definition observation : Type := config * num.
Definition DataFrame : Type := list config.

(** [self.obj]: the fields of the objective store the driver depends on.
    [results] is the ResultSet in insertion order; [exindex] is empty
    when no experiment index was given. *)
Record objective : Type := mkObjective {
  domain : list config;
  results : list observation;
  exindex : list observation;
  computational_objective : option (config -> num);
  target : string
}.

Definition set_results (o : objective) (r : list observation) : objective :=
  mkObjective (domain o) r (exindex o) (computational_objective o) (target o).

(** [acquisition(acquisition_function, batch_size=..., duplicates=...)] *)
Record acquisition : Type := mkAcquisition {
  acq_function : string;
  acq_batch_size : nat;
  acq_duplicates : bool
}.

(** [Init(init_method, batch_size)] *)
Record Init : Type := mkInit {
  method : string;
  init_batch_size : nat
}.

(** A prior specification [[prior, initial_value]], or [None]. *)
Definition prior_spec : Type := option (option prior_dist * num).

(** The keyword arguments handed to the surrogate's constructor. *)
Record hyper : Type := mkHyper {
  h_gpu : bool;
  h_nu : num;
  h_noise_constraint : num;
  h_lengthscale_prior : prior_spec;
  h_outputscale_prior : prior_spec;
  h_noise_prior : prior_spec;
  h_n_restarts : Z;
  h_learning_rate : num;
  h_training_iters : Z
}.

(** [self.model] starts as the model type itself ("slot for after eval")
    and holds a model object once [run] or [simulate] has built one. *)
Inductive model_slot : Type :=
| ModelClass (c : model_class)
| ModelObject (m : model_inst).

(** The attributes of [self]. *)
Record BO : Type := mkBO {
  fast_comp : pyval;
  obj : objective;
  acq : acquisition;
  init_seq : Init;
  base_model : model_class;
  model : model_slot;
  batch_size : nat;
  duplicate_experiments : bool;
  gpu : bool;
  proposed_experiments : DataFrame;
  nu : num;
  noise_constraint : num;
  lengthscale_prior : prior_spec;
  outputscale_prior : prior_spec;
  noise_prior : prior_spec
}.

Definition set_obj (s : BO) (o : objective) : BO :=
  mkBO (fast_comp s) o (acq s) (init_seq s) (base_model s) (model s)
       (batch_size s) (duplicate_experiments s) (gpu s)
       (proposed_experiments s) (nu s) (noise_constraint s)
       (lengthscale_prior s) (outputscale_prior s) (noise_prior s).

Definition set_model (s : BO) (m : model_slot) : BO :=
  mkBO (fast_comp s) (obj s) (acq s) (init_seq s) (base_model s) m
       (batch_size s) (duplicate_experiments s) (gpu s)
       (proposed_experiments s) (nu s) (noise_constraint s)
       (lengthscale_prior s) (outputscale_prior s) (noise_prior s).

Definition set_proposed_experiments (s : BO) (b : DataFrame) : BO :=
  mkBO (fast_comp s) (obj s) (acq s) (init_seq s) (base_model s) (model s)
       (batch_size s) (duplicate_experiments s) (gpu s)
       b (nu s) (noise_constraint s)
       (lengthscale_prior s) (outputscale_prior s) (noise_prior s).

Definition set_priors (s : BO) (ls os n : prior_spec) : BO :=
  mkBO (fast_comp s) (obj s) (acq s) (init_seq s) (base_model s) (model s)
       (batch_size s) (duplicate_experiments s) (gpu s)
       (proposed_experiments s) (nu s) (noise_constraint s)
       ls os n.

(** The three prior specifications together: the PriorState. *)
Definition priors (s : BO) : prior_spec * prior_spec * prior_spec :=
  (lengthscale_prior s, outputscale_prior s, noise_prior s).

(** The calls the driver makes into its collaborators, in the order made.
    The log is ghost state: no method reads it. *)
Inductive event : Type :=
| EvFastComputation (b : bool)
| EvClearResults
| EvInitRun (seen : objective)
| EvConstruct (X : list config) (y : list num) (h : hyper)
| EvFit
| EvEvaluate (seen : objective)
| EvGetResults (seen : objective) (batch : DataFrame) (append : bool).

(** What a method call can touch: the object, gpytorch's process-wide
    fast-computation switch, the random generators, and the log. *)
Record world : Type := mkWorld {
  self : BO;
  fast_mode : bool;
  gen : rng;
  log : list event
}.

(** ** The monad of the driver *)

Definition M (A : Type) : Type := world -> result A * world.

Definition ret {A} (a : A) : M A := fun w => (Ok a, w).

Definition bind {A B} (m : M A) (f : A -> M B) : M B :=
  fun w =>
    match m w with
    | (Ok a, w') => f a w'
    | (Err e, w') => (Err e, w')
    end.

Definition raise {A} (e : error) : M A := fun w => (Err e, w).

Definition read {A} (f : BO -> A) : M A := fun w => (Ok (f (self w)), w).

Definition assign (f : BO -> BO) : M unit :=
  fun w => (Ok tt, mkWorld (f (self w)) (fast_mode w) (gen w) (log w)).

Definition emit (e : event) : M unit :=
  fun w => (Ok tt, mkWorld (self w) (fast_mode w) (gen w) (log w ++ [e])).

Definition with_gen {A} (f : rng -> result A * rng) : M A :=
  fun w => let (r, g) := f (gen w) in
           (r, mkWorld (self w) (fast_mode w) g (log w)).

(** [for i in range(n): body(i)], counting up from [i]. *)
Fixpoint for_from (i n : nat) (body : nat -> M unit) : M unit :=
  match n with
  | O => ret tt
  | S n' => bind (body i) (fun _ => for_from (S i) n' body)
  end.

(** [range(n)] of a Python integer is empty when [n <= 0]. *)
Definition for_range (n : Z) (body : nat -> M unit) : M unit :=
  for_from 0 (Z.to_nat n) body.

End DataModel.

Notation "x <- m ;; k" := (bind m (fun x => k))
  (at level 61, m at next level, right associativity).
Notation "m ;; k" := (bind m (fun _ => k))
  (at level 61, right associativity).

(** ** The collaborators

    [bro.py] imports its collaborators from sibling modules that are not
    part of the driver: the objective store, the initialization scheme,
    the acquisition function and the surrogate models, next to numpy and
    pandas.  The driver is embedded over their operations, taken as
    parameters.  The signatures fix what each call may touch, as the
    spec describes the components: the initialization policy "chooses a
    first batch" and the acquisition policy "scores candidates and
    returns" a batch, so both read the store and advance the random
    generators; fitting changes the model object it is called on; only
    [get_results] "mutates ResultSet" and returns a new store. *)
Class Collaborators `{T : Types} : Type := {
  (* init_scheme: self.init_seq.run(self.obj, seed=..., export_path=...) *)
  Init_run : Init -> objective -> option Z -> option string -> rng ->
             result DataFrame * rng;
  (* models: str(cls), cls(X, y, **kwargs), fit, predict, variance and
     the fitted point estimates read back by simulate *)
  class_str : model_class -> string;
  construct : model_class -> list config -> list num -> hyper ->
              result model_inst;
  fit : model_inst -> rng -> result unit * model_inst * rng;
  predict : model_inst -> list config -> list num;
  variance : model_inst -> list config -> list num;
  lengthscale : model_inst -> num;
  outputscale : model_inst -> num;
  noise : model_inst -> num;
  (* acq_func: self.acq.evaluate(self.model, self.obj) *)
  evaluate : acquisition -> model_inst -> objective -> rng ->
             result DataFrame * rng;
  (* objective: self.obj.get_results(points, append=...) and the scaler *)
  get_results : objective -> DataFrame -> bool ->
                result (list observation) * objective;
  fit_scaler : list num -> scaler;
  standardize : scaler -> num -> num;
  unstandardize : scaler -> num -> num;
  scaler_std : scaler -> num;
  (* numpy: np.sqrt(x), x * y, x ** 2 *)
  np_sqrt : num -> num;
  num_mul : num -> num -> num;
  num_sq : num -> num;
  (* pandas: df.sort_values(column, ascending=...) with the default kind *)
  sort_values : list observation -> bool -> list observation
}.

Section Driver.
Context `{C : Collaborators}.

(** *** The objective store, as far as the driver reads it *)

(** Modelled from the spec: [objective.clear_results] (module
    [objective] is not among the sources): "clear(): empties ResultSet". *)
Definition obj_clear_results (o : objective) : objective := set_results o [].

(** Modelled from the spec: [obj.X] of the absent [objective] module,
    the "design matrix ... from ResultSet": its configurations. *)
Definition obj_X (o : objective) : list config := map fst (results o).

(** Modelled from the spec: [obj.scaler] of the absent [objective]
    module, "derived from ResultSet outcomes" and "fit on the full
    current ResultSet outcomes". *)
Definition obj_scaler (o : objective) : scaler :=
  fit_scaler (map snd (results o)).

(** Modelled from the spec: [obj.y] of the absent [objective] module,
    the outcomes of the ResultSet mapped "to zero-mean/unit-variance
    space" by the standardizer. *)
Definition obj_y (o : objective) : list num :=
  map (standardize (obj_scaler o)) (map snd (results o)).

(** Modelled from the spec: [objective.results_input] of the absent
    [objective] module, the results table with its outcomes
    de-standardized, rows in insertion order. *)
Definition results_input (o : objective) : list observation := results o.

(** A computational objective or a (non-empty) experiment index. *)
Definition has_outcome_source (o : objective) : bool :=
  match computational_objective o with
  | Some _ => true
  | None => negb (Nat.eqb (List.length (exindex o)) 0)
  end.

(** *** Calls into the collaborators *)

Definition lift_result {A} (r : result A) : M A := fun w => (r, w).

(** [fast_computation(flag)] sets gpytorch's process-wide switches. *)
Definition fast_computation (flag : bool) : M unit :=
  emit (EvFastComputation flag) ;;
  fun w => (Ok tt, mkWorld (self w) flag (gen w) (log w)).

(** [self.obj.clear_results()] *)
Definition call_clear_results : M unit :=
  emit EvClearResults ;;
  assign (fun s => set_obj s (obj_clear_results (obj s))).

(** [self.proposed_experiments = self.init_seq.run(self.obj, seed=seed,
    export_path=export_path)] *)
Definition call_init_run (seed : option Z) (export_path : option string)
  : M unit :=
  s <- read (fun s => s) ;;
  emit (EvInitRun (obj s)) ;;
  b <- with_gen (Init_run (init_seq s) (obj s) seed export_path) ;;
  assign (fun s => set_proposed_experiments s b).

(** [self.obj.get_results(self.proposed_experiments, append=append)];
    the returned table is dropped by every caller. *)
Definition call_get_results (append : bool) : M unit :=
  s <- read (fun s => s) ;;
  emit (EvGetResults (obj s) (proposed_experiments s) append) ;;
  fun w =>
    let (r, o') := get_results (obj s) (proposed_experiments s) append in
    (match r with Ok _ => Ok tt | Err e => Err e end,
     mkWorld (set_obj (self w) o') (fast_mode w) (gen w) (log w)).

(** [self.model.fit()]: the model object in the slot is fitted in place. *)
Definition call_fit : M unit :=
  emit EvFit ;;
  fun w =>
    match model (self w) with
    | ModelObject m =>
        let '(r, m', g') := fit m (gen w) in
        (r, mkWorld (set_model (self w) (ModelObject m')) (fast_mode w) g'
                    (log w))
    | ModelClass _ => (Err TypeError, w)
    end.

(** The keyword arguments of the surrogate's constructor, as both [run]
    and [simulate] assemble them from [self] and their own arguments. *)
Definition current_hyper (s : BO) (nr : Z) (lr : num) (ti : Z) : hyper :=
  mkHyper (gpu s) (nu s) (noise_constraint s) (lengthscale_prior s)
          (outputscale_prior s) (noise_prior s) nr lr ti.

(** The block "Initialize and train model", which [run] and [simulate]
    both contain word for word:
    [self.model = self.base_model(self.obj.X, self.obj.y, gpu=self.gpu,
    nu=self.nu, noise_constraint=..., lengthscale_prior=...,
    outputscale_prior=..., noise_prior=..., n_restarts=...,
    learning_rate=..., training_iters=...); self.model.fit()] *)
Definition train_model (n_restarts : Z) (learning_rate : num)
  (training_iters : Z) : M unit :=
  s <- read (fun s => s) ;;
  let h := current_hyper s n_restarts learning_rate training_iters in
  emit (EvConstruct (obj_X (obj s)) (obj_y (obj s)) h) ;;
  m <- lift_result (construct (base_model s) (obj_X (obj s)) (obj_y (obj s)) h) ;;
  assign (fun s => set_model s (ModelObject m)) ;;
  call_fit.

(** [self.proposed_experiments = self.acq.evaluate(self.model, self.obj)] *)
Definition call_evaluate : M unit :=
  s <- read (fun s => s) ;;
  emit (EvEvaluate (obj s)) ;;
  match model s with
  | ModelObject m =>
      b <- with_gen (evaluate (acq s) m (obj s)) ;;
      assign (fun s => set_proposed_experiments s b)
  | ModelClass _ => raise TypeError
  end.

(** *** The methods of [BO] *)

(** [init_sample(self, seed=None, append=False, export_path=None)] *)
Definition init_sample (seed : option Z) (append : bool)
  (export_path : option string) : M DataFrame :=
  m <- read (fun s => method (init_seq s)) ;;
  (if negb (String.eqb m "external") then call_clear_results else ret tt) ;;
  call_init_run seed export_path ;;
  (if append && negb (String.eqb m "external")
   then call_get_results append else ret tt) ;;
  read proposed_experiments.

(** [run(self, append=False, n_restarts=0, learning_rate=0.1,
    training_iters=100)] *)
Definition run (append : bool) (n_restarts : Z) (learning_rate : num)
  (training_iters : Z) : M DataFrame :=
  train_model n_restarts learning_rate training_iters ;;
  call_evaluate ;;
  (if append then call_get_results append else ret tt) ;;
  read proposed_experiments.

(** "Toggle computation": [if fast_comp == True: ... elif fast_comp ==
    False: ... elif fast_comp < len(self.obj.y): ...] *)
Definition toggle_computation (fc : pyval) : M unit :=
  if py_eq fc (PyBool true) then fast_computation true
  else if py_eq fc (PyBool false) then fast_computation false
  else
    y <- read (fun s => obj_y (obj s)) ;;
    if py_lt_len fc (List.length y) then fast_computation true else ret tt.

(** [p = [None, post]] when [p == None], [p[1] = post] otherwise. *)
Definition carry (p : prior_spec) (post : num) : prior_spec :=
  match p with
  | None => Some (None, post)
  | Some (d, _) => Some (d, post)
  end.

(** "Use parameter estimates from previous step as initial values":
    [if update_priors == True and i > 0 and 'GP' in str(self.base_model)] *)
Definition carry_priors (update_priors : bool) (i : nat) : M unit :=
  s <- read (fun s => s) ;;
  if update_priors && Nat.ltb 0 i && str_in "GP" (class_str (base_model s))
  then
    match model s with
    | ModelObject m =>
        assign (fun s =>
          set_priors s (carry (lengthscale_prior s) (lengthscale m))
                       (carry (outputscale_prior s) (outputscale m))
                       (carry (noise_prior s) (noise m)))
    | ModelClass _ => raise AttributeError
    end
  else ret tt.

(** One pass through the body of [simulate]'s loop. *)
Definition simulate_step (fc : pyval) (update_priors : bool)
  (n_restarts : Z) (learning_rate : num) (training_iters : Z) (i : nat)
  : M unit :=
  toggle_computation fc ;;
  carry_priors update_priors i ;;
  train_model n_restarts learning_rate training_iters ;;
  call_evaluate ;;
  call_get_results true.

(** The part of [simulate_step] that precedes the append. *)
Definition simulate_step_upto_proposal (fc : pyval) (up : bool) (nr : Z)
  (lr : num) (ti : Z) (i : nat) : M unit :=
  toggle_computation fc ;; carry_priors up i ;;
  train_model nr lr ti ;; call_evaluate.

(** [simulate(self, iterations=1, seed=None, fast_comp=False,
    update_priors=False, n_restarts=0, learning_rate=0.1,
    training_iters=100)] *)
Definition simulate (iterations : Z) (seed : option Z) (fc : pyval)
  (update_priors : bool) (n_restarts : Z) (learning_rate : num)
  (training_iters : Z) : M unit :=
  init_sample seed true None ;;
  for_range iterations
    (simulate_step fc update_priors n_restarts learning_rate training_iters).

(** [clear_results(self)] *)
Definition clear_results : M unit := call_clear_results.

(** The table [acquisition_summary] returns: the rows of the proposed
    experiments and the columns added to them. *)
Definition summary : Type := DataFrame * list (string * list num).

(** [self.model.predict(X)] and [self.model.variance(X)].  While the slot
    still holds the model type, the attribute is the plain function and
    the call lacks its [self] argument: Python raises [TypeError]. *)
Definition call_predict (X : list config) : M (list num) :=
  s <- read (fun s => s) ;;
  match model s with
  | ModelObject m => ret (predict m X)
  | ModelClass _ => raise TypeError
  end.

Definition call_variance (X : list config) : M (list num) :=
  s <- read (fun s => s) ;;
  match model s with
  | ModelObject m => ret (variance m X)
  | ModelClass _ => raise TypeError
  end.

(** [acquisition_summary(self)] *)
Definition acquisition_summary : M summary :=
  proposed <- read proposed_experiments ;;
  let X := proposed in
  sc <- read (fun s => obj_scaler (obj s)) ;;
  p <- call_predict X ;;
  let mean := map (unstandardize sc) p in
  v <- call_variance X ;;
  let var := map (fun x => num_sq (num_mul (np_sqrt x) (scaler_std sc))) v in
  tgt <- read (fun s => target (obj s)) ;;
  ret (proposed, [(("predicted " ++ tgt)%string, mean); ("variance", var)]).

(** [DataFrame.head()] keeps the first five rows. *)
Definition head (A : Type) (l : list A) : list A := firstn 5 l.

(** [best(self)].  [sort_values(self.obj.target, ascending=False)] looks
    the target column up before it sorts.  An empty ResultSet is the
    table [pd.DataFrame()], which has no columns (it is the constructor's
    default and what clearing leaves), so on it the lookup raises
    [KeyError] and nothing is returned. *)
Definition best : M (list observation) :=
  o <- read obj ;;
  match results_input o with
  | [] => raise KeyError
  | _ :: _ => ret (head _ (sort_values (results_input o) false))
  end.

(** [BO.__init__], given the objective store built from the data
    arguments: the switch is set from [fast_comp] first, the model slot
    holds the model type and no experiments are proposed. *)
Definition BO_init (o : objective) (model0 : model_class)
  (acquisition_function init_method : string) (batch : nat)
  (duplicates gpu0 : bool) (fc : pyval) (noise_constraint0 matern_nu : num)
  (ls os n : prior_spec) (g : rng) : world :=
  mkWorld
    (mkBO fc o (mkAcquisition acquisition_function batch duplicates)
          (mkInit init_method batch) model0 (ModelClass model0) batch
          duplicates gpu0 [] matern_nu noise_constraint0 ls os n)
    (py_truth fc) g [EvFastComputation (py_truth fc)].

(** What the constructor establishes and no method changes. *)
Definition constructed (s : BO) : Prop :=
  acq_batch_size (acq s) = batch_size s /\
  acq_duplicates (acq s) = duplicate_experiments s /\
  init_batch_size (init_seq s) = batch_size s.

End Driver.

(** ** Readings of the world

    What the statements below observe: the calls recorded in the log,
    the attributes no method assigns, and the frame of a computation. *)

Section Readings.
Context `{T : Types}.

Definition event_name (e : event) : string :=
  match e with
  | EvFastComputation true => "fast_computation(True)"
  | EvFastComputation false => "fast_computation(False)"
  | EvClearResults => "obj.clear_results"
  | EvInitRun _ => "init_seq.run"
  | EvConstruct _ _ _ => "base_model"
  | EvFit => "model.fit"
  | EvEvaluate _ => "acq.evaluate"
  | EvGetResults _ _ true => "obj.get_results(append=True)"
  | EvGetResults _ _ false => "obj.get_results(append=False)"
  end.

Definition is_fit (e : event) : bool :=
  match e with EvFit => true | _ => false end.

Definition is_evaluate (e : event) : bool :=
  match e with EvEvaluate _ => true | _ => false end.

Definition is_get_results (e : event) : bool :=
  match e with EvGetResults _ _ _ => true | _ => false end.

Definition is_append (e : event) : bool :=
  match e with EvGetResults _ _ true => true | _ => false end.

Definition count (p : event -> bool) (l : list event) : nat :=
  List.length (filter p l).

(** The attributes no method assigns after construction. *)
Definition static (s : BO)
  : acquisition * Init * model_class * nat * bool :=
  (acq s, init_seq s, base_model s, batch_size s, duplicate_experiments s).

(** [keeps g m]: running [m] never changes the reading [g] of the world,
    whether [m] returns or raises. *)
Definition keeps {A X} (g : world -> X) (m : M A) : Prop :=
  forall w, g (snd (m w)) = g w.

(** [preserves P m]: running [m] in a world where [P] holds ends, whether
    [m] returns or raises, in a world where [P] holds. *)
Definition preserves {A} (P : world -> Prop) (m : M A) : Prop :=
  forall w, P w -> P (snd (m w)).

(** [adds_to_log m]: whether [m] returns or raises, the log it leaves is
    the log it found with the calls it made put behind. *)
Definition adds_to_log {A} (m : M A) : Prop :=
  forall w, exists rest, log (snd (m w)) = log w ++ rest.

(** The world [w] with another ResultSet in the store, and with another
    occupant of the model slot. *)
Definition with_results (w : world) (r : list observation) : world :=
  mkWorld (set_obj (self w) (set_results (obj (self w)) r))
          (fast_mode w) (gen w) (log w).

Definition with_model (w : world) (m : model_slot) : world :=
  mkWorld (set_model (self w) m) (fast_mode w) (gen w) (log w).

(** The prior object of a specification, [p[0]]; a specification that is
    [None] has none. *)
Definition prior_object (p : prior_spec) : option prior_dist :=
  match p with
  | Some (d, _) => d
  | None => None
  end.

Definition prior_objects (s : BO)
  : option prior_dist * option prior_dist * option prior_dist :=
  (prior_object (lengthscale_prior s), prior_object (outputscale_prior s),
   prior_object (noise_prior s)).

End Readings.

(** ** What the driver relies on from its collaborators *)

Section Contracts.
Context `{C : Collaborators}.

(** Modelled from the spec: the contract of [acquisition.evaluate]
    (module [acq_func] is not among the sources): the policy "scores
    candidates and returns batch_size configurations", and "unless
    duplicate_experiments is enabled, any candidate already present in
    ResultSet is excluded from consideration for the entire batch". *)
Definition acquisition_contract : Prop :=
  forall a m o g b g',
    evaluate a m o g = (Ok b, g') ->
    List.length b = acq_batch_size a /\
    (acq_duplicates a = false -> forall c, In c b -> ~ In c (obj_X o)).

(** Modelled from the spec: the contract of [objective.get_results]
    (module [objective] is not among the sources) when outcomes can be
    resolved: it "looks up each candidate's outcome in a pre-supplied
    index or computes it via a user function" and, "if append, mutates
    ResultSet": one observation per candidate is appended and nothing
    else of the store changes. *)
Definition store_contract : Prop :=
  forall o b delta o',
    has_outcome_source o = true ->
    get_results o b true = (Ok delta, o') ->
    map fst delta = b /\ o' = set_results o (results o ++ delta).

(** What pandas documents for [sort_values(column, ascending=False)]
    with its default [kind='quicksort']: the rows come back rearranged
    in descending order of the column.  The order of rows with equal
    keys is promised only for the kinds 'mergesort' and 'stable'. *)
Definition descending (a b : observation) : Prop :=
  num_leb (snd b) (snd a) = true.

Definition sort_contract : Prop :=
  forall l, Permutation l (sort_values l false) /\
            Sorted descending (sort_values l false).

(** The rows of [l] with outcome equal to that of [x], in the order of [l]. *)
Definition tied (x : observation) (l : list observation) : list observation :=
  filter (fun r => num_leb (snd r) (snd x) && num_leb (snd x) (snd r)) l.

(** What pandas documents in addition for the kinds 'mergesort' and
    'stable', which [best] does not request: rows with equal keys come
    back in the order they had. *)
Definition keeps_tied_rows_in_order : Prop :=
  forall l x, tied x (sort_values l false) = tied x l.

End Contracts.

(** ** A small laboratory

    Concrete collaborators to run the driver on: configurations and
    numbers are integers, initialization takes the first [batch_size]
    domain points, the surrogate reports the number of training rows as
    its fitted lengthscale, acquisition proposes the first eligible
    domain points, and the store resolves outcomes through the
    computational objective or the experiment index.  [strict] selects
    what the store does without an outcome source: refuse with
    [MissingObjectiveError], or hand the candidates back unresolved. *)
Module Lab.

Record lab_model : Type := mkLabModel {
  lm_rows : nat;        (* number of training rows *)
  lm_start : Z;         (* initial lengthscale taken from the prior *)
  lm_fitted : bool
}.

#[export] Instance lab_types : Types := {|
  config := Z;
  num := Z;
  num_leb := Z.leb;
  prior_dist := string;
  model_class := string;
  model_inst := lab_model;
  scaler := Z * Z;
  rng := nat
|}.

Definition lab_Init_run (i : Init) (o : objective) (seed : option Z)
  (export_path : option string) (g : nat) : result DataFrame * nat :=
  if String.eqb (method i) "external" then (Ok (map fst (results o)), g)
  else if Nat.ltb (List.length (domain o)) (init_batch_size i)
       then (Err InitializationError, g)
       else (Ok (firstn (init_batch_size i) (domain o)), S g).

Definition lab_construct (c : string) (X : list Z) (y : list Z) (h : hyper)
  : result lab_model :=
  match X with
  | [] => Err EmptyDataError
  | _ => Ok (mkLabModel (List.length X)
                        (match h_lengthscale_prior h with
                         | Some (_, v) => v
                         | None => 0%Z
                         end) false)
  end.

Definition lab_fit (m : lab_model) (g : nat) : result unit * lab_model * nat :=
  (Ok tt, mkLabModel (lm_rows m) (lm_start m) true, S g).

Definition lab_eligible (a : acquisition) (o : objective) : list Z :=
  if acq_duplicates a then domain o
  else filter (fun c => negb (existsb (Z.eqb c) (map fst (results o))))
              (domain o).

Definition lab_evaluate (a : acquisition) (m : lab_model) (o : objective)
  (g : nat) : result DataFrame * nat :=
  if Nat.ltb (List.length (lab_eligible a o)) (acq_batch_size a)
  then (Err InsufficientCandidatesError, g)
  else (Ok (firstn (acq_batch_size a) (lab_eligible a o)), S g).

Definition lab_lookup (index : list observation) (c : Z) : option observation :=
  find (fun r => Z.eqb (fst r) c) index.

Fixpoint lab_resolve (f : Z -> option observation) (b : list Z)
  : option (list observation) :=
  match b with
  | [] => Some []
  | c :: b' =>
      match f c, lab_resolve f b' with
      | Some r, Some rs => Some ((c, snd r) :: rs)
      | _, _ => None
      end
  end.

Definition lab_get_results (strict : bool) (o : objective) (b : DataFrame)
  (append : bool) : result (list observation) * objective :=
  if has_outcome_source o then
    match lab_resolve
            (match computational_objective o with
             | Some f => fun c => Some (c, f c)
             | None => lab_lookup (exindex o)
             end) b with
    | Some delta =>
        (Ok delta, if append then set_results o (results o ++ delta) else o)
    | None => (Err MissingObjectiveError, o)
    end
  else if strict then (Err MissingObjectiveError, o)
  else (Ok [], o).

(** Insertion of a row into a table sorted by outcome, descending; a row
    goes in front of the rows it ties with. *)
Fixpoint lab_insert (x : observation) (l : list observation)
  : list observation :=
  match l with
  | [] => [x]
  | y :: l' => if Z.leb (snd y) (snd x) then x :: l else y :: lab_insert x l'
  end.

(** Sorting by insertion from the last row to the first: rows with equal
    outcomes stay in the order they were entered. *)
Definition lab_sort_values (l : list observation) (ascending : bool)
  : list observation :=
  let sorted := fold_right lab_insert [] l in
  if ascending then rev sorted else sorted.

Definition lab (strict : bool) : Collaborators := {|
  Init_run := lab_Init_run;
  class_str := fun c => c;
  construct := lab_construct;
  fit := lab_fit;
  predict := fun m X => map (fun c => (c + Z.of_nat (lm_rows m))%Z) X;
  variance := fun m X => map (fun c => 4%Z) X;
  lengthscale := fun m => (lm_start m + Z.of_nat (lm_rows m))%Z;
  outputscale := fun m => Z.of_nat (lm_rows m);
  noise := fun m => 1%Z;
  evaluate := lab_evaluate;
  get_results := lab_get_results strict;
  fit_scaler := fun l => (fold_right Z.min 0%Z l, 3%Z);
  standardize := fun sc x => (x - fst sc)%Z;
  unstandardize := fun sc x => (x + fst sc)%Z;
  scaler_std := snd;
  np_sqrt := Z.sqrt;
  num_mul := Z.mul;
  num_sq := fun x => (x * x)%Z;
  sort_values := lab_sort_values
|}.

(** A domain of six points with the objective [f(c) = -(c - 3)^2]. *)
Definition lab_objective (res : list observation)
  (f : option (Z -> Z)) : objective :=
  mkObjective [0; 1; 2; 3; 4; 5]%Z res [] f "yield".

Definition neg_square (c : Z) : Z := (- ((c - 3) * (c - 3)))%Z.

Definition lab_world (o : objective) (init_method : string) (batch : nat)
  (duplicates : bool) (fc : pyval) : world :=
  BO_init o "<class 'edbo.models.GP_Model'>" "EI" init_method batch
          duplicates false fc 0%Z 2%Z
          (Some (Some "GammaPrior(2.0, 0.2)", 5%Z))
          (Some (Some "GammaPrior(5.0, 0.5)", 8%Z))
          None 0.

(** The worlds the driver is run on below. *)
Definition sim_world : world :=
  lab_world (lab_objective [] (Some neg_square)) "rand" 2 false (PyBool false).

Definition run_world : world :=
  lab_world (lab_objective [(0, -9); (1, -4)]%Z (Some neg_square))
            "rand" 2 false (PyBool false).

Definition no_source_world : world :=
  lab_world (lab_objective [(5, 9)]%Z None) "rand" 2 false (PyBool false).

Definition external_no_source_world : world :=
  lab_world (lab_objective [(5, 9)]%Z None) "external" 2 false (PyBool false).

(** Eighteen experiments, numbered in the order they were entered, that
    all gave yield 0. *)
Definition eighteen : list Z := map Z.of_nat (seq 0 18).

Definition ties_world : world :=
  BO_init (mkObjective eighteen (map (fun c => (c, 0%Z)) eighteen) [] None
                       "yield")
          "<class 'edbo.models.GP_Model'>" "EI" "external" 2 false false
          (PyBool false) 0%Z 2%Z None None None 0.

Definition fast_world : world :=
  lab_world (lab_objective [] (Some neg_square)) "rand" 2 false (PyBool true).

(** The same BO as [sim_world] with a random-forest base model. *)
Definition forest_world : world :=
  BO_init (lab_objective [] (Some neg_square))
          "<class 'edbo.models.RF_Model'>" "EI" "rand" 2 false false
          (PyBool false) 0%Z 2%Z
          (Some (Some "GammaPrior(2.0, 0.2)", 5%Z))
          (Some (Some "GammaPrior(5.0, 0.5)", 8%Z))
          None 0.

(** A BO given two results from outside. *)
Definition external_world : world :=
  lab_world (lab_objective [(4, -1); (2, -1)]%Z (Some neg_square))
            "external" 2 false (PyBool false).


(** A BO asked for batches of seven on the six-point domain. *)
Definition crowded_world : world :=
  lab_world (lab_objective [(5, -4)]%Z (Some neg_square)) "rand" 7 false
            (PyBool false).

End Lab.

(** ** Properties of the methods *)

Section Methods.
Context `{C : Collaborators}.

Lemma count_app p l1 l2 : count p (l1 ++ l2) = count p l1 + count p l2.
Proof. unfold count. now rewrite filter_app, length_app. Qed.


Lemma bind_ok {A B} (m : M A) (f : A -> M B) w a w1 :
  m w = (Ok a, w1) -> bind m f w = f a w1.
Proof. intros H. unfold bind. now rewrite H. Qed.

Lemma bind_err {A B} (m : M A) (f : A -> M B) w e w1 :
  m w = (Err e, w1) -> bind m f w = (Err e, w1).
Proof. intros H. unfold bind. now rewrite H. Qed.

Lemma bind_inv_ok {A B} (m : M A) (f : A -> M B) w b w2 :
  bind m f w = (Ok b, w2) ->
  exists a w1, m w = (Ok a, w1) /\ f a w1 = (Ok b, w2).
Proof.
  unfold bind. destruct (m w) as [[a|e] w1]; intros H.
  - now exists a, w1.
  - discriminate.
Qed.

Lemma bind_inv_err {A B} (m : M A) (f : A -> M B) w e w2 :
  bind m f w = (Err e, w2) ->
  m w = (Err e, w2) \/ exists a w1, m w = (Ok a, w1) /\ f a w1 = (Err e, w2).
Proof.
  unfold bind. destruct (m w) as [[a|e'] w1]; intros H.
  - right. now exists a, w1.
  - left. now inversion H.
Qed.

(** *** [init_sample] *)


(** C10.  [init_sample] hands its proposed batch to the store for
    appending only when [append] is true and the method is not
    'external'.  In every other case the store receives no
    [get_results] call at all and the ResultSet is what the clearing
    left: empty, or untouched for 'external'.  In particular
    [init_sample(append=True)] with method 'external' leaves the whole
    store as it was. *)
Theorem init_sample_appends_only_when
  (seed : option Z) (append : bool) (export_path : option string) (w : world) :
  let w' := snd (init_sample seed append export_path w) in
  let external := String.eqb (method (init_seq (self w))) "external" in
  let cleared := obj_clear_results (obj (self w)) in
  exists new,
    log w' = log w ++ new /\
    (append && negb external = false ->
       count is_get_results new = 0 /\
       results (obj (self w')) =
         if external then results (obj (self w)) else []) /\
    (append && negb external = true ->
       forall b g',
         Init_run (init_seq (self w)) cleared seed export_path (gen w)
           = (Ok b, g') ->
         new = [EvClearResults; EvInitRun cleared; EvGetResults cleared b true] /\
         obj (self w') = snd (get_results cleared b true)) /\
    (external = true -> obj (self w') = obj (self w)).
Proof.
  cbv zeta. unfold init_sample, call_clear_results, call_init_run,
    call_get_results, bind, read, ret, emit, assign, with_gen. cbn.
  destruct (String.eqb (method (init_seq (self w))) "external") eqn:E; cbn.
  - rewrite andb_false_r.
    exists [EvInitRun (obj (self w))].
    destruct (Init_run _ _ _ _ _) as [[b|e] g'] eqn:R; cbn;
      repeat split; auto; discriminate.
  - rewrite andb_true_r.
    destruct (Init_run _ _ _ _ _) as [[b|e] g'] eqn:R; cbn.
    + destruct append; cbn.
      * exists [EvClearResults; EvInitRun (obj_clear_results (obj (self w)));
                EvGetResults (obj_clear_results (obj (self w))) b true].
        destruct (get_results _ _ _) as [[d|e] o'] eqn:G; cbn;
          (split; [now rewrite <- !app_assoc|]);
          (split; [discriminate|]);
          (split; [|discriminate]);
          intros _ b0 g0 H0; inversion H0; subst; now rewrite G.
      * exists [EvClearResults; EvInitRun (obj_clear_results (obj (self w)))].
        split; [now rewrite <- !app_assoc|].
        split; [auto|]. split; discriminate.
    + exists [EvClearResults; EvInitRun (obj_clear_results (obj (self w)))].
      split; [now rewrite <- !app_assoc|].
      split; [auto|]. split; [|discriminate].
      intros _ b0 g0 H0. discriminate.
Qed.

(** *** What each call leaves alone *)

Lemma keeps_bind {A B X} (g : world -> X) (m : M A) (f : A -> M B) :
  keeps g m -> (forall a, keeps g (f a)) -> keeps g (bind m f).
Proof.
  intros Hm Hf w. unfold bind. specialize (Hm w).
  destruct (m w) as [[a|e] w1]; cbn in *.
  - now rewrite Hf.
  - exact Hm.
Qed.

Lemma keeps_ret {A X} (g : world -> X) (a : A) : keeps g (ret a).
Proof. now intros w. Qed.

Lemma keeps_read {A X} (g : world -> X) (f : BO -> A) : keeps g (read f).
Proof. now intros w. Qed.

Lemma keeps_raise {A X} (g : world -> X) e : keeps g (@raise _ A e).
Proof. now intros w. Qed.

Lemma keeps_if {A X} (g : world -> X) (b : bool) (m1 m2 : M A) :
  keeps g m1 -> keeps g m2 -> keeps g (if b then m1 else m2).
Proof. now destruct b. Qed.

Lemma fast_computation_run b w :
  fast_computation b w =
    (Ok tt, mkWorld (self w) b (gen w) (log w ++ [EvFastComputation b])).
Proof. reflexivity. Qed.

Lemma keeps_self_toggle fc : keeps self (toggle_computation fc).
Proof.
  intros w. unfold toggle_computation.
  destruct (py_eq fc (PyBool true)); [reflexivity|].
  destruct (py_eq fc (PyBool false)); [reflexivity|].
  unfold bind, read. cbn.
  now destruct (py_lt_len fc _).
Qed.

Lemma keeps_call_get_results {X} (g : BO -> X) a :
  (forall s o, g (set_obj s o) = g s) ->
  keeps (fun w => g (self w)) (call_get_results a).
Proof.
  intros H w. unfold call_get_results, bind, read, emit. cbn.
  destruct (get_results _ _ _) as [r o']. cbn. apply H.
Qed.

Lemma keeps_train_model {X} (g : BO -> X) nr lr ti :
  (forall s m, g (set_model s m) = g s) ->
  keeps (fun w => g (self w)) (train_model nr lr ti).
Proof.
  intros H w. unfold train_model, call_fit, bind, read, emit, lift_result,
    assign. cbn.
  destruct (construct _ _ _ _) as [m|e]; cbn; [|reflexivity].
  destruct (fit _ _) as [[r m'] g']. cbn. now rewrite !H.
Qed.

Lemma keeps_call_evaluate {X} (g : BO -> X) :
  (forall s b, g (set_proposed_experiments s b) = g s) ->
  keeps (fun w => g (self w)) call_evaluate.
Proof.
  intros H w. unfold call_evaluate, bind, read, emit, with_gen, assign, raise.
  cbn. destruct (model (self w)); [reflexivity|]. cbn.
  destruct (evaluate _ _ _ _) as [[b|e] g']; cbn; auto.
Qed.

Lemma keeps_carry_priors {X} (g : BO -> X) up i :
  (forall s a b c, g (set_priors s a b c) = g s) ->
  keeps (fun w => g (self w)) (carry_priors up i).
Proof.
  intros H w. unfold carry_priors, bind, read, assign, raise, ret. cbn.
  destruct (_ && _); [|reflexivity].
  destruct (model (self w)); cbn; auto.
Qed.

Create HintDb frame.
#[local] Hint Resolve keeps_ret keeps_read keeps_raise keeps_if keeps_bind
  keeps_train_model keeps_call_evaluate keeps_call_get_results
  keeps_carry_priors : frame.

(** *** The steps of an iteration, when they return *)

Lemma toggle_computation_run fc w :
  exists w0,
    toggle_computation fc w = (Ok tt, w0) /\
    self w0 = self w /\ gen w0 = gen w /\
    ((log w0 = log w /\ fast_mode w0 = fast_mode w) \/
     exists b, log w0 = log w ++ [EvFastComputation b] /\ fast_mode w0 = b).
Proof.
  unfold toggle_computation.
  destruct (py_eq fc (PyBool true)).
  { eexists. split; [apply fast_computation_run|]. cbn. eauto 6. }
  destruct (py_eq fc (PyBool false)).
  { eexists. split; [apply fast_computation_run|]. cbn. eauto 6. }
  unfold bind, read. cbn.
  destruct (py_lt_len fc _).
  - eexists. split; [apply fast_computation_run|]. cbn. eauto 6.
  - exists w. unfold ret. auto 6.
Qed.

Lemma train_model_ok nr lr ti w u w1 :
  train_model nr lr ti w = (Ok u, w1) ->
  exists m0 m1,
    construct (base_model (self w)) (obj_X (obj (self w)))
              (obj_y (obj (self w))) (current_hyper (self w) nr lr ti) = Ok m0 /\
    fit m0 (gen w) = (Ok tt, m1, gen w1) /\
    self w1 = set_model (self w) (ModelObject m1) /\
    fast_mode w1 = fast_mode w /\
    log w1 = log w ++ [EvConstruct (obj_X (obj (self w))) (obj_y (obj (self w)))
                                   (current_hyper (self w) nr lr ti); EvFit].
Proof.
  unfold train_model, call_fit, bind, read, emit, lift_result, assign,
    current_hyper. cbn.
  destruct (construct _ _ _ _) as [m0|e]; cbn; [|discriminate].
  destruct (fit m0 (gen w)) as [[r m1] g1] eqn:F. cbn.
  destruct r as [[]|e]; intros H; inversion H; subst; clear H. cbn.
  exists m0, m1. rewrite <- app_assoc. auto.
Qed.

Lemma call_evaluate_ok w u w1 :
  call_evaluate w = (Ok u, w1) ->
  exists m b,
    model (self w) = ModelObject m /\
    evaluate (acq (self w)) m (obj (self w)) (gen w) = (Ok b, gen w1) /\
    self w1 = set_proposed_experiments (self w) b /\
    fast_mode w1 = fast_mode w /\
    log w1 = log w ++ [EvEvaluate (obj (self w))].
Proof.
  unfold call_evaluate, bind, read, emit, with_gen, assign, raise. cbn.
  destruct (model (self w)) as [c|m]; cbn; [discriminate|].
  destruct (evaluate _ _ _ _) as [[b|e] g1] eqn:E; cbn;
    intros H; inversion H; subst; clear H. cbn.
  exists m, b. auto.
Qed.

Lemma call_get_results_ok a w u w1 :
  call_get_results a w = (Ok u, w1) ->
  exists delta,
    get_results (obj (self w)) (proposed_experiments (self w)) a
      = (Ok delta, obj (self w1)) /\
    self w1 = set_obj (self w) (obj (self w1)) /\
    fast_mode w1 = fast_mode w /\ gen w1 = gen w /\
    log w1 = log w ++ [EvGetResults (obj (self w))
                                    (proposed_experiments (self w)) a].
Proof.
  unfold call_get_results, bind, read, emit. cbn.
  destruct (get_results _ _ _) as [[d|e] o1] eqn:G; cbn;
    intros H; inversion H; subst; clear H. cbn.
  exists d. auto.
Qed.

Lemma carry_priors_run up i w :
  carry_priors up i w =
    if up && Nat.ltb 0 i && str_in "GP" (class_str (base_model (self w)))
    then match model (self w) with
         | ModelObject m =>
             (Ok tt,
              mkWorld (set_priors (self w)
                         (carry (lengthscale_prior (self w)) (lengthscale m))
                         (carry (outputscale_prior (self w)) (outputscale m))
                         (carry (noise_prior (self w)) (noise m)))
                      (fast_mode w) (gen w) (log w))
         | ModelClass _ => (Err AttributeError, w)
         end
    else (Ok tt, w).
Proof.
  unfold carry_priors, bind, read, assign, raise, ret. cbn.
  destruct (_ && _); [|reflexivity].
  now destruct (model (self w)).
Qed.



(** C7.  [acquisition_summary] has no check of its own for a missing
    proposal.  While the model slot still holds the model type, as it
    does from construction until the first [run] or [simulate]
    iteration, the call raises Python's [TypeError] at
    [self.model.predict(X)], whether or not [init_sample] has proposed a
    batch.  Once a model object is in the slot it returns the proposed
    batch together with the column 'predicted <target>' holding the
    de-standardized predicted means and the column 'variance' holding
    [(sqrt(v) * std) ** 2] for the predicted variances [v]; after a
    [run] that returned, the batch is the one [run] returned and the
    model the one it fitted.  In every case the ResultSet, the stored
    batch, the model and everything else are left as they were. *)
Theorem acquisition_summary_spec (w : world) :
  let table (s : BO) (m : model_inst) : summary :=
    (proposed_experiments s,
     [(("predicted " ++ target (obj s))%string,
       map (unstandardize (obj_scaler (obj s)))
           (predict m (proposed_experiments s)));
      ("variance",
       map (fun v => num_sq (num_mul (np_sqrt v)
                                     (scaler_std (obj_scaler (obj s)))))
           (variance m (proposed_experiments s)))]) in
  (match model (self w) with
   | ModelClass _ => acquisition_summary w = (Err TypeError, w)
   | ModelObject m => acquisition_summary w = (Ok (table (self w) m), w)
   end) /\
  (forall append nr lr ti b w1,
     run append nr lr ti w = (Ok b, w1) ->
     exists m0 m g g',
       fit m0 g = (Ok tt, m, g') /\
       model (self w1) = ModelObject m /\
       proposed_experiments (self w1) = b /\
       acquisition_summary w1 = (Ok (table (self w1) m), w1)).
Proof.
  cbv zeta.
  assert (Hsum : forall w0,
    match model (self w0) with
    | ModelClass _ => acquisition_summary w0 = (Err TypeError, w0)
    | ModelObject m =>
        acquisition_summary w0 =
          (Ok (proposed_experiments (self w0),
               [(("predicted " ++ target (obj (self w0)))%string,
                 map (unstandardize (obj_scaler (obj (self w0))))
                     (predict m (proposed_experiments (self w0))));
                ("variance",
                 map (fun v => num_sq (num_mul (np_sqrt v)
                         (scaler_std (obj_scaler (obj (self w0))))))
                     (variance m (proposed_experiments (self w0))))]), w0)
    end).
  { intros w0.
    unfold acquisition_summary, call_predict, call_variance, bind, read, ret,
      raise. cbn.
    destruct (model (self w0)) as [c|m] eqn:E; cbn; rewrite ?E; reflexivity. }
  split; [apply Hsum|].
  intros append nr lr ti b w1 H. unfold run in H.
  apply bind_inv_ok in H as (u1 & wa & Htrain & H).
  apply bind_inv_ok in H as (u2 & wb & Heval & H).
  apply bind_inv_ok in H as (u3 & wc & Hget & H).
  unfold read in H. inversion H; subst; clear H.
  apply train_model_ok in Htrain as (m0 & m1 & _ & Hfit & Hself & _).
  pose proof (keeps_call_evaluate model (fun _ _ => eq_refl) wa) as K1.
  rewrite Heval in K1. cbn in K1.
  assert (K2 : model (self w1) = model (self wb)).
  { destruct append.
    - pose proof (keeps_call_get_results model true (fun _ _ => eq_refl) wb)
        as K2. now rewrite Hget in K2.
    - unfold ret in Hget. now inversion Hget. }
  assert (Hm : model (self w1) = ModelObject m1)
    by (now rewrite K2, K1, Hself).
  exists m0, m1, (gen w), (gen wa). repeat split; auto.
  specialize (Hsum w1). now rewrite Hm in Hsum.
Qed.

(** C4.  What [simulate(fast_comp=0)] and [simulate(fast_comp=1)] decide
    in every iteration: [0 == False] and [1 == True] hold in Python, so the
    integer thresholds 0 and 1 are taken for the booleans, and the size
    of the ResultSet is not looked at. *)
Theorem toggle_computation_small_thresholds (w : world) :
  toggle_computation (PyInt 0) w = fast_computation false w /\
  toggle_computation (PyInt 1) w = fast_computation true w.
Proof. split; reflexivity. Qed.

(** What [toggle_computation] decides for a genuine boolean and for any
    other integer threshold. *)
Lemma toggle_computation_cases (fc : pyval) (w : world) :
  match fc with
  | PyBool b => toggle_computation fc w = fast_computation b w
  | PyInt z =>
      z <> 0%Z -> z <> 1%Z ->
      toggle_computation fc w =
        if Z.ltb z (Z.of_nat (List.length (results (obj (self w)))))
        then fast_computation true w else (Ok tt, w)
  end.
Proof.
  destruct fc as [[|]|z]; try reflexivity.
  intros H0 H1. unfold toggle_computation, py_eq, py_lt_len. cbn.
  destruct (Z.eqb_spec z 1); [contradiction|].
  destruct (Z.eqb_spec z 0); [contradiction|].
  unfold bind, read, obj_y. cbn. rewrite !length_map.
  now destruct (Z.ltb z _).
Qed.

(** *** Sizes under the collaborators' contracts *)

(** The constructor establishes [constructed]. *)
Lemma BO_init_constructed o model0 af im batch dup gpu0 fc nc mn ls os n g :
  constructed (self (BO_init o model0 af im batch dup gpu0 fc nc mn ls os n g)).
Proof. repeat split. Qed.

Lemma constructed_static s s1 :
  static s1 = static s -> constructed s -> constructed s1.
Proof.
  unfold static, constructed. intros H. inversion H as [[Ha Hi Hm Hb Hd]].
  now rewrite Ha, Hi, Hb, Hd.
Qed.

Lemma has_outcome_source_set_results o r :
  has_outcome_source (set_results o r) = has_outcome_source o.
Proof. reflexivity. Qed.

Lemma run_ok append nr lr ti w b w1 :
  run append nr lr ti w = (Ok b, w1) ->
  exists m g g',
    evaluate (acq (self w)) m (obj (self w)) g = (Ok b, g') /\
    proposed_experiments (self w1) = b /\
    static (self w1) = static (self w) /\
    priors (self w1) = priors (self w) /\
    if append
    then exists delta,
           get_results (obj (self w)) b true = (Ok delta, obj (self w1))
    else obj (self w1) = obj (self w).
Proof.
  intros H. unfold run in H.
  apply bind_inv_ok in H as (u1 & wa & Htrain & H).
  apply bind_inv_ok in H as (u2 & wb & Heval & H).
  apply bind_inv_ok in H as (u3 & wc & Hget & H).
  unfold read in H. inversion H; subst; clear H.
  apply train_model_ok in Htrain as (m0 & m1 & _ & _ & Hsa & _).
  apply call_evaluate_ok in Heval as (m & b & Hm & Hev & Hsb & _).
  rewrite Hsa in Hm, Hev, Hsb. cbn in Hm, Hev, Hsb.
  exists m, (gen wa), (gen wb).
  destruct append.
  - apply call_get_results_ok in Hget as (delta & Hg & Hsc & _).
    rewrite Hsb in Hg, Hsc. cbn in Hg, Hsc.
    rewrite Hsc. cbn. repeat split; auto. now exists delta.
  - unfold ret in Hget. inversion Hget; subst. rewrite Hsb. cbn.
    repeat split; auto.
Qed.

(** C5.  With a computational objective or experiment index to resolve
    outcomes from, and collaborators that keep their contracts, a
    [run(append=True)] that returns has made the ResultSet larger by
    exactly [batch_size], and unless [duplicate_experiments] is set no
    configuration of the returned batch was in the ResultSet before the
    call. *)
Theorem run_append_grows_by_batch_size
  (nr : Z) (lr : num) (ti : Z) (w : world) (b : DataFrame) (w1 : world) :
  acquisition_contract -> store_contract ->
  constructed (self w) ->
  has_outcome_source (obj (self w)) = true ->
  run true nr lr ti w = (Ok b, w1) ->
  List.length (results (obj (self w1))) =
    List.length (results (obj (self w))) + batch_size (self w) /\
  List.length b = batch_size (self w) /\
  (duplicate_experiments (self w) = false ->
   forall c, In c b -> ~ In c (map fst (results (obj (self w))))).
Proof.
  intros HA HS (Hb & Hd & _) Hsrc H.
  apply run_ok in H as (m & g & g' & Hev & _ & _ & _ & delta & Hg).
  apply HA in Hev as (Hlen & Hdis).
  apply HS in Hg as (Hfst & Ho); [|exact Hsrc].
  rewrite Ho. cbn. rewrite length_app.
  assert (List.length delta = List.length b) as ->
    by (now rewrite <- Hfst, length_map).
  rewrite Hlen, Hb. repeat split; auto.
  intros Hdup. apply Hdis. now rewrite Hd.
Qed.

Lemma init_sample_ok seed a ep w b w0 :
  init_sample seed a ep w = (Ok b, w0) ->
  static (self w0) = static (self w) /\
  proposed_experiments (self w0) = b /\
  if String.eqb (method (init_seq (self w))) "external"
  then obj (self w0) = obj (self w)
  else if a
       then exists delta,
              get_results (obj_clear_results (obj (self w))) b true
                = (Ok delta, obj (self w0))
       else obj (self w0) = obj_clear_results (obj (self w)).
Proof.
  unfold init_sample, call_clear_results, call_init_run, call_get_results,
    bind, read, ret, emit, assign, with_gen. cbn.
  destruct (String.eqb (method (init_seq (self w))) "external") eqn:E; cbn.
  - rewrite andb_false_r.
    destruct (Init_run _ _ _ _ _) as [[b0|e] g'] eqn:R; cbn;
      intros H; inversion H; subst; auto.
  - rewrite andb_true_r.
    destruct (Init_run _ _ _ _ _) as [[b0|e] g'] eqn:R; cbn;
      [|discriminate].
    destruct a; cbn.
    + destruct (get_results _ _ _) as [[d|e] o'] eqn:G; cbn;
        intros H; inversion H; subst; cbn. eauto.
    + intros H; inversion H; subst; auto.
Qed.

Lemma simulate_step_ok fc up nr lr ti i w w1 :
  acquisition_contract -> store_contract ->
  constructed (self w) ->
  has_outcome_source (obj (self w)) = true ->
  simulate_step fc up nr lr ti i w = (Ok tt, w1) ->
  List.length (results (obj (self w1))) =
    List.length (results (obj (self w))) + batch_size (self w) /\
  static (self w1) = static (self w) /\
  has_outcome_source (obj (self w1)) = true /\
  exists new, log w1 = log w ++ new /\
    count is_fit new = 1 /\ count is_evaluate new = 1 /\
    count is_append new = 1.
Proof.
  intros HA HS (Hb & Hd & _) Hsrc H. unfold simulate_step in H.
  destruct (toggle_computation_run fc w) as (w0 & Ht & Hs0 & _ & Hlog0).
  rewrite (bind_ok _ _ _ _ _ Ht) in H.
  apply bind_inv_ok in H as (u1 & wa & Hcarry & H).
  apply bind_inv_ok in H as (u2 & wb & Htrain & H).
  apply bind_inv_ok in H as (u3 & wc & Heval & H).
  assert (Hca : obj (self wa) = obj (self w) /\
                static (self wa) = static (self w) /\ log wa = log w0).
  { rewrite carry_priors_run in Hcarry. rewrite <- Hs0.
    destruct (_ && _); [destruct (model (self w0))|];
      inversion Hcarry; subst; auto. }
  destruct Hca as (Hoa & Hsta & Hla).
  apply train_model_ok in Htrain as (m0 & m1 & _ & _ & Hsb & _ & Hlb).
  apply call_evaluate_ok in Heval as (m & b & _ & Hev & Hsc & _ & Hlc).
  apply call_get_results_ok in H as (delta & Hg & Hsd & _ & _ & Hld).
  rewrite Hsc in Hg, Hsd, Hld. cbn in Hg, Hsd, Hld.
  rewrite Hsb in Hev, Hg, Hsd, Hlc, Hld. cbn in Hev, Hg, Hsd, Hlc, Hld.
  rewrite Hoa in Hev, Hg, Hlc, Hld.
  apply HA in Hev as (Hlen & _).
  apply HS in Hg as (Hfst & Ho); [|exact Hsrc].
  assert (Hacq : acq (self wa) = acq (self w)) by (now inversion Hsta).
  rewrite Hacq, Hb in Hlen.
  rewrite Ho. cbn. rewrite length_app.
  assert (List.length delta = List.length b) as ->
    by (now rewrite <- Hfst, length_map).
  rewrite Hlen. split; [reflexivity|].
  split. { rewrite Hsd. cbn. exact Hsta. }
  split. { exact Hsrc. }
  rewrite Hld, Hlc, Hlb, Hla.
  destruct Hlog0 as [(Hl & _)|(fb & Hl & _)]; rewrite Hl;
    eexists; (split; [rewrite <- !app_assoc; reflexivity|]);
    rewrite ?count_app; cbn; auto.
Qed.

Lemma for_from_simulate_ok fc up nr lr ti n :
  acquisition_contract -> store_contract ->
  forall i w w1,
    constructed (self w) ->
    has_outcome_source (obj (self w)) = true ->
    for_from i n (simulate_step fc up nr lr ti) w = (Ok tt, w1) ->
    List.length (results (obj (self w1))) =
      List.length (results (obj (self w))) + n * batch_size (self w) /\
    exists new, log w1 = log w ++ new /\
      count is_fit new = n /\ count is_evaluate new = n /\
      count is_append new = n.
Proof.
  intros HA HS. induction n as [|n IH]; intros i w w1 Hc Hsrc H; cbn in H.
  - unfold ret in H. inversion H; subst. split; [lia|].
    exists []. rewrite app_nil_r. auto.
  - apply bind_inv_ok in H as ([] & wa & Hstep & H).
    apply (simulate_step_ok _ _ _ _ _ _ _ _ HA HS Hc Hsrc) in Hstep
      as (Hlen & Hst & Hsrc' & new1 & Hl1 & F1 & E1 & A1).
    apply IH in H as (Hlen2 & new2 & Hl2 & F2 & E2 & A2);
      [| now apply (constructed_static _ _ Hst) | exact Hsrc'].
    assert (Hbs : batch_size (self wa) = batch_size (self w))
      by (now inversion Hst).
    split. { rewrite Hlen2, Hlen, Hbs. cbn. lia. }
    exists (new1 ++ new2). rewrite Hl2, Hl1, <- app_assoc.
    rewrite !count_app. repeat split; lia.
Qed.

(** C1.  With an outcome source and collaborators that keep their
    contracts, a [simulate(iterations=N)] that returns leaves the
    ResultSet with (size after initialization) + N x [batch_size]
    observations, where the ResultSet after initialization is the
    initial batch: the batch [init_sample] proposed and appended, or,
    for 'external', the results supplied beforehand.  After
    initialization the call fits exactly N surrogates, asks for exactly
    N proposals and makes exactly N appending [get_results] calls: the
    loop has no other exit. *)
Theorem simulate_result_size
  (N : Z) (seed : option Z) (fc : pyval) (up : bool) (nr : Z) (lr : num)
  (ti : Z) (w w' : world) :
  acquisition_contract -> store_contract ->
  constructed (self w) ->
  has_outcome_source (obj (self w)) = true ->
  simulate N seed fc up nr lr ti w = (Ok tt, w') ->
  exists batch0 w0,
    init_sample seed true None w = (Ok batch0, w0) /\
    (if String.eqb (method (init_seq (self w))) "external"
     then results (obj (self w0)) = results (obj (self w))
     else map fst (results (obj (self w0))) = batch0) /\
    List.length (results (obj (self w'))) =
      List.length (results (obj (self w0)))
      + Z.to_nat N * batch_size (self w) /\
    exists new, log w' = log w0 ++ new /\
      count is_fit new = Z.to_nat N /\
      count is_evaluate new = Z.to_nat N /\
      count is_append new = Z.to_nat N.
Proof.
  intros HA HS Hc Hsrc H. unfold simulate, for_range in H.
  apply bind_inv_ok in H as (batch0 & w0 & Hinit & H).
  exists batch0, w0. split; [exact Hinit|].
  apply init_sample_ok in Hinit as (Hst & _ & Hobj).
  assert (Hsrc0 : has_outcome_source (obj (self w0)) = true /\
    if String.eqb (method (init_seq (self w))) "external"
    then results (obj (self w0)) = results (obj (self w))
    else map fst (results (obj (self w0))) = batch0).
  { destruct (String.eqb _ _).
    - now rewrite Hobj.
    - destruct Hobj as (delta & Hg).
      apply HS in Hg as (Hfst & Ho); [|exact Hsrc].
      rewrite Ho. cbn. auto. }
  destruct Hsrc0 as (Hsrc0 & Hinitial). split; [exact Hinitial|].
  apply for_from_simulate_ok in H; auto.
  - assert (Hbs : batch_size (self w0) = batch_size (self w))
      by (now inversion Hst).
    now rewrite Hbs in H.
  - now apply (constructed_static _ _ Hst).
Qed.

(** *** Failures *)

Lemma for_from_err (body : nat -> M unit) n :
  forall i w e w1,
    for_from i n body w = (Err e, w1) ->
    exists k wk, k < n /\ for_from i k body w = (Ok tt, wk) /\
                 body (i + k) wk = (Err e, w1).
Proof.
  induction n as [|n IH]; intros i w e w1 H; cbn in H.
  - discriminate.
  - apply bind_inv_err in H as [H|(u & wa & Hb & H)].
    + exists 0, w. rewrite Nat.add_0_r. repeat split; auto. lia.
    + apply IH in H as (k & wk & Hk & Hfor & Hbody).
      exists (S k), wk. split; [lia|]. split.
      * cbn. now rewrite (bind_ok _ _ _ _ _ Hb).
      * now rewrite Nat.add_succ_r.
Qed.

Lemma call_get_results_err a w e w1 :
  call_get_results a w = (Err e, w1) ->
  get_results (obj (self w)) (proposed_experiments (self w)) a
    = (Err e, obj (self w1)).
Proof.
  unfold call_get_results, bind, read, emit. cbn.
  destruct (get_results _ _ _) as [[d|e'] o1]; cbn;
    intros H; inversion H; subst; reflexivity.
Qed.

Lemma simulate_step_split fc up nr lr ti i w :
  simulate_step fc up nr lr ti i w =
    (simulate_step_upto_proposal fc up nr lr ti i ;; call_get_results true) w.
Proof.
  unfold simulate_step, simulate_step_upto_proposal, bind.
  destruct (toggle_computation fc w) as [[u|e] wa]; [|reflexivity].
  destruct (carry_priors up i wa) as [[u1|e] wb]; [|reflexivity].
  destruct (train_model nr lr ti wb) as [[u2|e] wc]; [|reflexivity].
  destruct (call_evaluate wc) as [[u3|e] wd]; reflexivity.
Qed.

Lemma keeps_obj_upto_proposal fc up nr lr ti i :
  keeps (fun w => obj (self w)) (simulate_step_upto_proposal fc up nr lr ti i).
Proof.
  unfold simulate_step_upto_proposal.
  apply keeps_bind; [|auto 8 with frame].
  intros w. now rewrite (keeps_self_toggle fc w).
Qed.

Lemma keeps_priors_run append nr lr ti :
  keeps (fun w => priors (self w)) (run append nr lr ti).
Proof.
  unfold run. auto 8 with frame.
Qed.

(** C6.  A failure aborts the call where it happens and nothing is
    rolled back.  [run] never touches the prior specifications and
    changes the store only in its final append, so its failure leaves
    the ResultSet as before the call unless the store itself failed
    while appending.  A failing [simulate] fails either in its
    initialization or in some iteration [k]; in the latter case the
    world it leaves is the one reached by the initialization and the
    [k] iterations completed before (their appended batches and carried
    prior estimates included), changed further only by what iteration
    [k] did before it failed, which up to its append is nothing on the
    store. *)
Theorem failure_keeps_completed_work
  (seed : option Z) (fc : pyval) (up : bool) (nr : Z) (lr : num) (ti : Z) :
  (forall append w,
     priors (self (snd (run append nr lr ti w))) = priors (self w)) /\
  (forall append w e w1,
     run append nr lr ti w = (Err e, w1) ->
     obj (self w1) = obj (self w) \/
     (append = true /\
      exists b, get_results (obj (self w)) b true = (Err e, obj (self w1)))) /\
  (forall N w e w1,
     simulate N seed fc up nr lr ti w = (Err e, w1) ->
     init_sample seed true None w = (Err e, w1) \/
     exists k wk,
       (Z.of_nat k < N)%Z /\
       simulate (Z.of_nat k) seed fc up nr lr ti w = (Ok tt, wk) /\
       simulate_step fc up nr lr ti k wk = (Err e, w1)) /\
  (forall i w e w1,
     simulate_step fc up nr lr ti i w = (Err e, w1) ->
     obj (self w1) = obj (self w) \/
     exists b, get_results (obj (self w)) b true = (Err e, obj (self w1))).
Proof.
  split; [|split; [|split]].
  - intros append w. apply (keeps_priors_run append nr lr ti w).
  - intros append w e w1 H. unfold run in H.
    apply bind_inv_err in H as [H|(u1 & wa & Htrain & H)].
    { left. pose proof (keeps_train_model obj nr lr ti (fun _ _ => eq_refl) w)
        as K. now rewrite H in K. }
    pose proof (keeps_train_model obj nr lr ti (fun _ _ => eq_refl) w) as Ka.
    rewrite Htrain in Ka. cbn in Ka.
    apply bind_inv_err in H as [H|(u2 & wb & Heval & H)].
    { left. pose proof (keeps_call_evaluate obj (fun _ _ => eq_refl) wa) as K.
      rewrite H in K. cbn in K. now rewrite K. }
    pose proof (keeps_call_evaluate obj (fun _ _ => eq_refl) wa) as Kb.
    rewrite Heval in Kb. cbn in Kb.
    apply bind_inv_err in H as [H|(u3 & wc & _ & H)];
      [|unfold read in H; discriminate].
    destruct append; [|unfold ret in H; discriminate].
    right. split; [reflexivity|].
    apply call_get_results_err in H. rewrite Kb, Ka in H. eauto.
  - intros N w e w1 H. unfold simulate, for_range in H.
    apply bind_inv_err in H as [H|(b0 & w0 & Hinit & H)]; [now left|].
    right. apply for_from_err in H as (k & wk & Hk & Hfor & Hstep).
    exists k, wk. split; [lia|]. split; [|exact Hstep].
    unfold simulate, for_range. rewrite Nat2Z.id.
    now rewrite (bind_ok _ _ _ _ _ Hinit).
  - intros i w e w1 H. rewrite simulate_step_split in H.
    apply bind_inv_err in H as [H|(u & wd & Hup & H)].
    + left. pose proof (keeps_obj_upto_proposal fc up nr lr ti i w) as K.
      now rewrite H in K.
    + right. pose proof (keeps_obj_upto_proposal fc up nr lr ti i w) as K.
      rewrite Hup in K. cbn in K.
      apply call_get_results_err in H. rewrite K in H. eauto.
Qed.

(** *** [simulate] without an outcome source *)

Lemma init_sample_external_run seed a ep w b g' :
  String.eqb (method (init_seq (self w))) "external" = true ->
  Init_run (init_seq (self w)) (obj (self w)) seed ep (gen w) = (Ok b, g') ->
  init_sample seed a ep w =
    (Ok b, mkWorld (set_proposed_experiments (self w) b) (fast_mode w) g'
                   (log w ++ [EvInitRun (obj (self w))])).
Proof.
  intros E R. unfold init_sample, call_clear_results, call_init_run,
    call_get_results, bind, read, ret, emit, assign, with_gen. cbn.
  rewrite E. cbn. rewrite R. cbn. now rewrite andb_false_r.
Qed.

(** The calls of the loop only add to the log. *)

Lemma adds_to_log_bind {A B} (m : M A) (f : A -> M B) :
  adds_to_log m -> (forall a, adds_to_log (f a)) -> adds_to_log (bind m f).
Proof.
  intros Hm Hf w. unfold bind. destruct (Hm w) as (r1 & H1).
  destruct (m w) as [[a|e] w1]; cbn in *.
  - destruct (Hf a w1) as (r2 & H2). exists (r1 ++ r2).
    now rewrite H2, H1, app_assoc.
  - now exists r1.
Qed.

Lemma adds_to_log_keeps {A} (m : M A) : keeps log m -> adds_to_log m.
Proof. intros K w. exists []. now rewrite K, app_nil_r. Qed.

Lemma adds_to_log_toggle_computation fc : adds_to_log (toggle_computation fc).
Proof.
  intros w. destruct (toggle_computation_run fc w)
    as (w0 & H & _ & _ & [(Hl & _)|(b & Hl & _)]); rewrite H; cbn.
  - exists []. now rewrite app_nil_r.
  - now exists [EvFastComputation b].
Qed.

Lemma adds_to_log_carry_priors up i : adds_to_log (carry_priors up i).
Proof.
  apply adds_to_log_keeps. intros w.
  unfold carry_priors, bind, read, assign, raise, ret. cbn.
  destruct (_ && _); [|reflexivity].
  now destruct (model (self w)).
Qed.

Lemma adds_to_log_train_model nr lr ti : adds_to_log (train_model nr lr ti).
Proof.
  intros w. unfold train_model, call_fit, bind, read, emit, lift_result,
    assign. cbn.
  destruct (construct _ _ _ _) as [m|e]; cbn; [|eauto].
  destruct (fit _ _) as [[r m'] g']. cbn. rewrite <- app_assoc. eauto.
Qed.

Lemma adds_to_log_call_evaluate : adds_to_log call_evaluate.
Proof.
  intros w. unfold call_evaluate, bind, read, emit, with_gen, assign, raise.
  cbn. destruct (model (self w)); cbn; [eauto|].
  destruct (evaluate _ _ _ _) as [[b|e] g']; cbn; eauto.
Qed.

Lemma adds_to_log_call_get_results a : adds_to_log (call_get_results a).
Proof.
  intros w. unfold call_get_results, bind, read, emit. cbn.
  destruct (get_results _ _ _) as [r o']. cbn. eauto.
Qed.

Lemma adds_to_log_for_from body n :
  (forall i, adds_to_log (body i)) -> forall i, adds_to_log (for_from i n body).
Proof.
  intros Hb. induction n as [|n IH]; intros i; cbn.
  - intros w. exists []. cbn. now rewrite app_nil_r.
  - apply adds_to_log_bind; auto.
Qed.

Lemma adds_to_log_simulate_step fc up nr lr ti i :
  adds_to_log (simulate_step fc up nr lr ti i).
Proof.
  unfold simulate_step.
  repeat (apply adds_to_log_bind; [|intros _]);
    auto using adds_to_log_toggle_computation, adds_to_log_carry_priors,
      adds_to_log_train_model, adds_to_log_call_evaluate,
      adds_to_log_call_get_results.
Qed.

(** C2.  [simulate] makes no check for an outcome source and raises no
    error of its own; its first action is [init_sample(seed,
    append=True)], and what happens without an outcome source is what
    the objective store does when it is asked.  With a method other than
    'external', a call whose initial sampling succeeds has cleared the
    ResultSet and sampled the initial batch before the store is asked
    for the first time, whatever the store then does: if the store
    raises, [simulate] raises the same error, with the batch stored as
    the proposed one, the store as the store left it and no surrogate
    built; if the store returns, the loop starts.  With 'external' the
    initialization asks the store nothing: a call with no iterations
    returns normally, and in a call with iterations the store is asked
    for the first time at the end of the first iteration, after the
    surrogate was fitted and the batch proposed; an error it raises
    there is the error of the call. *)
Theorem simulate_without_outcome_source
  (N : Z) (seed : option Z) (fc : pyval) (up : bool) (nr : Z) (lr : num)
  (ti : Z) (w : world) :
  let cleared := obj_clear_results (obj (self w)) in
  let external := String.eqb (method (init_seq (self w))) "external" in
  let step := simulate_step fc up nr lr ti in
  (external = false ->
   forall b g',
     Init_run (init_seq (self w)) cleared seed None (gen w) = (Ok b, g') ->
     let asked := log w ++ [EvClearResults; EvInitRun cleared;
                            EvGetResults cleared b true] in
     (exists rest,
        log (snd (simulate N seed fc up nr lr ti w)) = asked ++ rest) /\
     (forall e o',
        get_results cleared b true = (Err e, o') ->
        exists w',
          simulate N seed fc up nr lr ti w = (Err e, w') /\
          obj (self w') = o' /\
          proposed_experiments (self w') = b /\
          model (self w') = model (self w) /\
          log w' = asked) /\
     (forall delta o',
        get_results cleared b true = (Ok delta, o') ->
        exists w1,
          init_sample seed true None w = (Ok b, w1) /\
          obj (self w1) = o' /\
          proposed_experiments (self w1) = b /\
          model (self w1) = model (self w) /\
          log w1 = asked /\
          simulate N seed fc up nr lr ti w = for_range N step w1)) /\
  (external = true ->
   forall b g',
     Init_run (init_seq (self w)) (obj (self w)) seed None (gen w)
       = (Ok b, g') ->
     let w0 := mkWorld (set_proposed_experiments (self w) b) (fast_mode w) g'
                       (log w ++ [EvInitRun (obj (self w))]) in
     (exists rest,
        log (snd (simulate N seed fc up nr lr ti w)) = log w0 ++ rest) /\
     ((N <= 0)%Z -> simulate N seed fc up nr lr ti w = (Ok tt, w0)) /\
     ((1 <= N)%Z ->
      forall wd,
        simulate_step_upto_proposal fc up nr lr ti 0 w0 = (Ok tt, wd) ->
        forall e o',
          get_results (obj (self w)) (proposed_experiments (self wd)) true
            = (Err e, o') ->
          exists w',
            simulate N seed fc up nr lr ti w = (Err e, w') /\
            obj (self w') = o' /\
            log w' = log wd ++ [EvGetResults (obj (self w))
                                  (proposed_experiments (self wd)) true])).
Proof.
  cbv zeta. split.
  - intros E b g' R.
    assert (I : forall r o',
      get_results (obj_clear_results (obj (self w))) b true = (r, o') ->
      init_sample seed true None w =
        (match r with Ok _ => Ok b | Err e => Err e end,
         mkWorld (set_obj (set_proposed_experiments
                             (set_obj (self w) (obj_clear_results (obj (self w))))
                             b) o')
                 (fast_mode w) g'
                 (log w ++ [EvClearResults;
                            EvInitRun (obj_clear_results (obj (self w)));
                            EvGetResults (obj_clear_results (obj (self w)))
                                         b true]))).
    { intros r o' G.
      unfold init_sample, call_clear_results, call_init_run,
        call_get_results, bind, read, ret, emit, assign, with_gen. cbn.
      rewrite E. cbn. rewrite R. cbn. rewrite G. cbn.
      rewrite <- !app_assoc. now destruct r. }
    split; [|split].
    + destruct (get_results (obj_clear_results (obj (self w))) b true)
        as [r o'] eqn:G.
      specialize (I r o' eq_refl). unfold simulate, for_range.
      destruct r as [d|e].
      * rewrite (bind_ok _ _ _ _ _ I).
        destruct (adds_to_log_for_from
                    (simulate_step fc up nr lr ti) (Z.to_nat N)
                    (adds_to_log_simulate_step fc up nr lr ti) 0
                    (mkWorld (set_obj (set_proposed_experiments
                                (set_obj (self w)
                                   (obj_clear_results (obj (self w)))) b) o')
                       (fast_mode w) g'
                       (log w ++ [EvClearResults;
                                  EvInitRun (obj_clear_results (obj (self w)));
                                  EvGetResults
                                    (obj_clear_results (obj (self w))) b true])))
          as (rest & Hrest).
        exists rest. exact Hrest.
      * rewrite (bind_err _ _ _ _ _ I). exists []. cbn.
        now rewrite app_nil_r.
    + intros e o' G. specialize (I _ _ G). eexists. split.
      * unfold simulate. apply bind_err. exact I.
      * cbn. auto.
    + intros d o' G. specialize (I _ _ G). eexists. split; [exact I|].
      cbn. repeat split. unfold simulate. now rewrite (bind_ok _ _ _ _ _ I).
  - intros E b g' R.
    pose proof (init_sample_external_run seed true None w b g' E R) as I.
    split; [|split].
    + unfold simulate, for_range. rewrite (bind_ok _ _ _ _ _ I).
      apply (adds_to_log_for_from (simulate_step fc up nr lr ti) (Z.to_nat N)
               (adds_to_log_simulate_step fc up nr lr ti) 0).
    + intros HN. unfold simulate, for_range.
      rewrite (bind_ok _ _ _ _ _ I).
      assert (Z.to_nat N = 0) as -> by lia. reflexivity.
    + intros HN wd Hup e o' G.
      pose proof (keeps_obj_upto_proposal fc up nr lr ti 0
                    (mkWorld (set_proposed_experiments (self w) b)
                             (fast_mode w) g'
                             (log w ++ [EvInitRun (obj (self w))]))) as K.
      rewrite Hup in K. cbn in K. rewrite <- K in G.
      eexists. split.
      * unfold simulate, for_range.
        rewrite (bind_ok _ _ _ _ _ I).
        destruct (Z.to_nat N) as [|n] eqn:EN; [lia|]. cbn.
        apply bind_err. rewrite simulate_step_split.
        rewrite (bind_ok _ _ _ _ _ Hup).
        unfold call_get_results, bind, read, emit. cbn. rewrite G. cbn.
        reflexivity.
      * cbn. now rewrite K.
Qed.

(** *** [best] *)




Lemma best_run w :
  best w =
    match results (obj (self w)) with
    | [] => (Err KeyError, w)
    | _ :: _ => (Ok (firstn 5 (sort_values (results (obj (self w))) false)), w)
    end.
Proof.
  unfold best, bind, read, results_input, head. cbn.
  now destruct (results (obj (self w))).
Qed.


End Methods.

(** ** Further properties of the methods *)

Section Further.
Context `{C : Collaborators}.

(** *** Frames *)

Lemma keeps_preserves {A X} (g : world -> X) (m : M A) (x : X) :
  keeps g m -> preserves (fun w => g w = x) m.
Proof. intros K w H. now rewrite K. Qed.

Lemma preserves_bind {A B} (P : world -> Prop) (m : M A) (f : A -> M B) :
  preserves P m -> (forall a, preserves P (f a)) -> preserves P (bind m f).
Proof.
  intros Hm Hf w H. unfold bind. specialize (Hm w H).
  destruct (m w) as [[a|e] w1]; cbn in *; auto. now apply Hf.
Qed.

Lemma preserves_for_from (P : world -> Prop) body n :
  (forall i, preserves P (body i)) -> forall i, preserves P (for_from i n body).
Proof.
  intros Hb. induction n as [|n IH]; intros i; cbn.
  - now intros w H.
  - apply preserves_bind; auto.
Qed.

Lemma keeps_for_from {X} (g : world -> X) body n :
  (forall i, keeps g (body i)) -> forall i, keeps g (for_from i n body).
Proof.
  intros Hb. induction n as [|n IH]; intros i; cbn.
  - apply keeps_ret.
  - apply keeps_bind; auto.
Qed.

Lemma keeps_call_clear_results {X} (g : BO -> X) :
  (forall s o, g (set_obj s o) = g s) ->
  keeps (fun w => g (self w)) call_clear_results.
Proof. intros H w. cbn. apply H. Qed.

Lemma keeps_call_init_run {X} (g : BO -> X) seed ep :
  (forall s b, g (set_proposed_experiments s b) = g s) ->
  keeps (fun w => g (self w)) (call_init_run seed ep).
Proof.
  intros H w. unfold call_init_run, bind, read, emit, with_gen, assign. cbn.
  destruct (Init_run _ _ _ _ _) as [[b|e] g']; cbn; auto.
Qed.

Lemma keeps_toggle_computation {X} (g : BO -> X) fc :
  keeps (fun w => g (self w)) (toggle_computation fc).
Proof. intros w. now rewrite (keeps_self_toggle fc w). Qed.

Create HintDb footprint.
#[local] Hint Resolve keeps_ret keeps_read keeps_raise keeps_if keeps_bind
  keeps_train_model keeps_call_evaluate keeps_call_get_results
  keeps_carry_priors keeps_call_clear_results keeps_call_init_run
  keeps_toggle_computation keeps_for_from : footprint.

(** A reading of [self] that the store, the proposed batch and the model
    slot do not enter is kept by [init_sample] and [run]; if the prior
    specifications do not enter it either, by [simulate] too. *)
Lemma keeps_init_sample {X} (g : BO -> X) seed a ep :
  (forall s o, g (set_obj s o) = g s) ->
  (forall s b, g (set_proposed_experiments s b) = g s) ->
  keeps (fun w => g (self w)) (init_sample seed a ep).
Proof. intros Ho Hp. unfold init_sample. auto 10 with footprint. Qed.

Lemma keeps_run {X} (g : BO -> X) a nr lr ti :
  (forall s o, g (set_obj s o) = g s) ->
  (forall s b, g (set_proposed_experiments s b) = g s) ->
  (forall s m, g (set_model s m) = g s) ->
  keeps (fun w => g (self w)) (run a nr lr ti).
Proof. intros Ho Hp Hm. unfold run. auto 10 with footprint. Qed.

Lemma keeps_simulate_step {X} (g : BO -> X) fc up nr lr ti i :
  (forall s o, g (set_obj s o) = g s) ->
  (forall s b, g (set_proposed_experiments s b) = g s) ->
  (forall s m, g (set_model s m) = g s) ->
  (forall s a b c, g (set_priors s a b c) = g s) ->
  keeps (fun w => g (self w)) (simulate_step fc up nr lr ti i).
Proof. intros Ho Hp Hm Hq. unfold simulate_step. auto 10 with footprint. Qed.

Lemma keeps_simulate {X} (g : BO -> X) N seed fc up nr lr ti :
  (forall s o, g (set_obj s o) = g s) ->
  (forall s b, g (set_proposed_experiments s b) = g s) ->
  (forall s m, g (set_model s m) = g s) ->
  (forall s a b c, g (set_priors s a b c) = g s) ->
  keeps (fun w => g (self w)) (simulate N seed fc up nr lr ti).
Proof.
  intros Ho Hp Hm Hq. unfold simulate, for_range.
  apply keeps_bind; [now apply keeps_init_sample|].
  intros _. apply keeps_for_from. intros i. now apply keeps_simulate_step.
Qed.

(** The process-wide switch is out of reach of every call but
    [fast_computation]. *)
Lemma keeps_fast_mode_clear : keeps fast_mode call_clear_results.
Proof. now intros w. Qed.

Lemma keeps_fast_mode_init_run seed ep : keeps fast_mode (call_init_run seed ep).
Proof.
  intros w. unfold call_init_run, bind, read, emit, with_gen, assign. cbn.
  now destruct (Init_run _ _ _ _ _) as [[b|e] g'].
Qed.

Lemma keeps_fast_mode_get_results a : keeps fast_mode (call_get_results a).
Proof.
  intros w. unfold call_get_results, bind, read, emit. cbn.
  now destruct (get_results _ _ _) as [r o'].
Qed.

Lemma keeps_fast_mode_train nr lr ti : keeps fast_mode (train_model nr lr ti).
Proof.
  intros w. unfold train_model, call_fit, bind, read, emit, lift_result,
    assign. cbn.
  destruct (construct _ _ _ _) as [m|e]; cbn; [|reflexivity].
  now destruct (fit _ _) as [[r m'] g'].
Qed.

Lemma keeps_fast_mode_evaluate : keeps fast_mode call_evaluate.
Proof.
  intros w. unfold call_evaluate, bind, read, emit, with_gen, assign, raise.
  cbn. destruct (model (self w)); [reflexivity|]. cbn.
  now destruct (evaluate _ _ _ _) as [[b|e] g'].
Qed.

Lemma keeps_fast_mode_carry up i : keeps fast_mode (carry_priors up i).
Proof.
  intros w. rewrite carry_priors_run.
  destruct (_ && _); [|reflexivity]. now destruct (model (self w)).
Qed.

#[local] Hint Resolve keeps_fast_mode_clear keeps_fast_mode_init_run
  keeps_fast_mode_get_results keeps_fast_mode_train keeps_fast_mode_evaluate
  keeps_fast_mode_carry : footprint.

Lemma acquisition_summary_world w : snd (acquisition_summary w) = w.
Proof.
  unfold acquisition_summary, call_predict, call_variance, bind, read, ret,
    raise. cbn.
  destruct (model (self w)) eqn:E; cbn; rewrite ?E; reflexivity.
Qed.

Lemma best_world w : snd (best w) = w.
Proof.
  unfold best, bind, read, raise, ret. cbn.
  now destruct (results_input (obj (self w))).
Qed.

(** *** What is never reassigned *)

(** X1.  The constructor makes the acquisition function and the
    initialization scheme share the BO's batch size and duplicate flag,
    and no method ever assigns [acq], [init_seq], [base_model],
    [batch_size] or [duplicate_experiments] again, whether it returns or
    raises. *)
Theorem configuration_is_never_reassigned :
  (forall o model0 af im batch dup gpu0 fc nc mn ls os n g,
     constructed (self (BO_init o model0 af im batch dup gpu0 fc nc mn ls os n g))) /\
  (forall seed a ep w,
     static (self (snd (init_sample seed a ep w))) = static (self w)) /\
  (forall a nr lr ti w,
     static (self (snd (run a nr lr ti w))) = static (self w)) /\
  (forall N seed fc up nr lr ti w,
     static (self (snd (simulate N seed fc up nr lr ti w))) = static (self w)) /\
  (forall w, static (self (snd (clear_results w))) = static (self w)) /\
  (forall w, static (self (snd (acquisition_summary w))) = static (self w)) /\
  (forall w, static (self (snd (best w))) = static (self w)).
Proof.
  repeat split.
  - intros. now apply (keeps_init_sample static).
  - intros. now apply (keeps_run static).
  - intros. now apply (keeps_simulate static).
  - intros. now rewrite acquisition_summary_world.
  - intros. now rewrite best_world.
Qed.

(** X2.  Outside [simulate] nothing changes the prior specifications or
    the process-wide fast-computation switch: [init_sample], [run] and
    [clear_results] keep both whatever their outcome, and
    [acquisition_summary] and [best] leave the whole world as it was. *)
Theorem priors_and_switch_change_only_in_simulate :
  (forall seed a ep w,
     let w' := snd (init_sample seed a ep w) in
     priors (self w') = priors (self w) /\ fast_mode w' = fast_mode w) /\
  (forall a nr lr ti w,
     let w' := snd (run a nr lr ti w) in
     priors (self w') = priors (self w) /\ fast_mode w' = fast_mode w) /\
  (forall w,
     let w' := snd (clear_results w) in
     priors (self w') = priors (self w) /\ fast_mode w' = fast_mode w) /\
  (forall w, snd (acquisition_summary w) = w) /\
  (forall w, snd (best w) = w).
Proof.
  cbv zeta. repeat split.
  - now apply (keeps_init_sample priors).
  - unfold init_sample.
    assert (K : keeps fast_mode
      (m <- read (fun s => method (init_seq s)) ;;
       (if negb (String.eqb m "external") then call_clear_results else ret tt) ;;
       call_init_run seed ep ;;
       (if a && negb (String.eqb m "external")
        then call_get_results a else ret tt) ;;
       read proposed_experiments)) by auto 10 with footprint.
    apply K.
  - now apply (keeps_run priors).
  - assert (K : keeps fast_mode (run a nr lr ti))
      by (unfold run; auto 10 with footprint).
    apply K.
  - apply acquisition_summary_world.
  - apply best_world.
Qed.

(** *** [simulate]: priors and the switch *)

Lemma simulate_step_without_carryover fc up nr lr ti i c p :
  up && str_in "GP" (class_str c) = false ->
  preserves (fun w => base_model (self w) = c /\ priors (self w) = p)
            (simulate_step fc up nr lr ti i).
Proof.
  intros Hc w (Hb & Hp). unfold simulate_step.
  destruct (toggle_computation_run fc w) as (w0 & Ht & Hs & _).
  rewrite (bind_ok _ _ _ _ _ Ht).
  assert (Hcarry : carry_priors up i w0 = (Ok tt, w0)).
  { rewrite carry_priors_run, Hs, Hb.
    destruct up; [|reflexivity]. cbn in Hc. rewrite Hc.
    now destruct (Nat.ltb 0 i). }
  rewrite (bind_ok _ _ _ _ _ Hcarry).
  assert (K1 : keeps (fun w => base_model (self w))
                 (train_model nr lr ti ;; call_evaluate ;;
                  call_get_results true)) by auto 8 with footprint.
  assert (K2 : keeps (fun w => priors (self w))
                 (train_model nr lr ti ;; call_evaluate ;;
                  call_get_results true)) by auto 8 with footprint.
  rewrite K1, K2, Hs. now split.
Qed.

(** X3.  Without [update_priors], or with a base model whose [str] does
    not contain 'GP', [simulate] leaves the three prior specifications
    exactly as they were, however many iterations it runs and whether
    it returns or raises. *)
Theorem simulate_without_carryover_keeps_priors
  (N : Z) (seed : option Z) (fc : pyval) (up : bool) (nr : Z) (lr : num)
  (ti : Z) (w : world) :
  up && str_in "GP" (class_str (base_model (self w))) = false ->
  priors (self (snd (simulate N seed fc up nr lr ti w))) = priors (self w).
Proof.
  intros Hc.
  assert (P : preserves (fun w' => base_model (self w') = base_model (self w)
                                   /\ priors (self w') = priors (self w))
                (simulate N seed fc up nr lr ti)).
  { unfold simulate, for_range. apply preserves_bind.
    - intros w1 (Hb & Hp).
      rewrite (keeps_init_sample base_model seed true None
                 (fun _ _ => eq_refl) (fun _ _ => eq_refl) w1).
      rewrite (keeps_init_sample priors seed true None
                 (fun _ _ => eq_refl) (fun _ _ => eq_refl) w1).
      now split.
    - intros _. apply preserves_for_from. intros i.
      now apply simulate_step_without_carryover. }
  now apply P.
Qed.

Lemma toggle_computation_keeps_on fc :
  py_int fc <> 0%Z ->
  preserves (fun w => fast_mode w = true) (toggle_computation fc).
Proof.
  intros Hfc w H. unfold toggle_computation, py_eq. cbn [py_int].
  destruct (Z.eqb (py_int fc) 1); [reflexivity|].
  destruct (Z.eqb_spec (py_int fc) 0); [contradiction|].
  unfold bind, read. cbn.
  now destruct (py_lt_len fc _).
Qed.

(** X4.  [simulate] switches fast computation off only for a
    [fast_comp] that equals [False] (the boolean, or the integer 0).
    For every other argument, a switch that is on when the call starts
    is on when it ends, whether the call returns or raises: below an
    integer threshold the mode is left as it is, not turned off. *)
Theorem simulate_never_switches_fast_mode_off
  (N : Z) (seed : option Z) (fc : pyval) (up : bool) (nr : Z) (lr : num)
  (ti : Z) (w : world) :
  py_int fc <> 0%Z ->
  fast_mode w = true ->
  fast_mode (snd (simulate N seed fc up nr lr ti w)) = true.
Proof.
  intros Hfc.
  assert (P : preserves (fun w => fast_mode w = true)
                (simulate N seed fc up nr lr ti)).
  { unfold simulate, for_range. apply preserves_bind.
    - apply keeps_preserves. unfold init_sample. auto 10 with footprint.
    - intros _. apply preserves_for_from. intros i. unfold simulate_step.
      apply preserves_bind; [now apply toggle_computation_keeps_on|].
      intros _. apply keeps_preserves. auto 10 with footprint. }
  apply P.
Qed.

Lemma simulate_step_sets_switch b up nr lr ti i w :
  fast_mode (snd (simulate_step (PyBool b) up nr lr ti i w)) = b.
Proof.
  unfold simulate_step.
  assert (Ht : toggle_computation (PyBool b) w = fast_computation b w)
    by (now destruct b).
  rewrite (bind_ok _ _ _ tt _ (eq_trans Ht (fast_computation_run b w))).
  assert (K : keeps fast_mode
                (carry_priors up i ;; train_model nr lr ti ;;
                 call_evaluate ;; call_get_results true))
    by auto 10 with footprint.
  now rewrite K.
Qed.

(** X5.  With a boolean [fast_comp], a [simulate] call that gets past
    its initialization and has at least one iteration to run leaves the
    process-wide switch at that boolean, whether the loop completes or
    an iteration raises; the setting made by the constructor is not
    restored. *)
Theorem simulate_boolean_sets_switch
  (N : Z) (seed : option Z) (b up : bool) (nr : Z) (lr : num) (ti : Z)
  (w : world) (batch0 : DataFrame) (w0 : world) :
  (1 <= N)%Z ->
  init_sample seed true None w = (Ok batch0, w0) ->
  fast_mode (snd (simulate N seed (PyBool b) up nr lr ti w)) = b.
Proof.
  intros HN Hinit. unfold simulate, for_range.
  rewrite (bind_ok _ _ _ _ _ Hinit).
  destruct (Z.to_nat N) as [|n] eqn:EN; [lia|]. cbn.
  unfold bind at 1.
  pose proof (simulate_step_sets_switch b up nr lr ti 0 w0) as H0.
  destruct (simulate_step (PyBool b) up nr lr ti 0 w0) as [[u|e] w1];
    cbn in H0; [|exact H0].
  assert (P : forall i, preserves (fun w => fast_mode w = b)
                (for_from i n (simulate_step (PyBool b) up nr lr ti))).
  { apply preserves_for_from. intros i w2 _.
    apply simulate_step_sets_switch. }
  now apply P.
Qed.

(** *** [run] *)

(** X6.  [run(append=False)] leaves the objective store exactly as it
    was, whether the call returns or raises: in human-in-the-loop use
    the ResultSet changes only when results are supplied from outside. *)
Theorem run_without_append_keeps_store
  (nr : Z) (lr : num) (ti : Z) (w : world) :
  obj (self (snd (run false nr lr ti w))) = obj (self w).
Proof.
  assert (K : keeps (fun w => obj (self w)) (run false nr lr ti)).
  { unfold run. apply keeps_bind; [auto with footprint|].
    intros _. apply keeps_bind; [auto with footprint|].
    intros _. apply keeps_bind; [apply keeps_ret|].
    intros _. apply keeps_read. }
  apply K.
Qed.

(** X7.  [run] builds its surrogate anew from [base_model] and never
    consults what the model slot held before: the outcome of the call is
    the same whatever the slot contained, and when the constructor
    succeeds so is the whole state the call leaves.  (When the
    constructor raises, the slot is the one thing left as it was.) *)
Theorem run_ignores_previous_model
  (a : bool) (nr : Z) (lr : num) (ti : Z) (w : world) (m : model_slot) :
  fst (run a nr lr ti (with_model w m)) = fst (run a nr lr ti w) /\
  (forall m0,
     construct (base_model (self w)) (obj_X (obj (self w)))
               (obj_y (obj (self w))) (current_hyper (self w) nr lr ti) = Ok m0 ->
     run a nr lr ti (with_model w m) = run a nr lr ti w).
Proof.
  unfold run, train_model, call_fit, call_evaluate, call_get_results,
    current_hyper, with_model, bind, read, emit, lift_result, assign,
    with_gen, raise, ret. cbn.
  destruct (construct _ _ _ _) as [m0|e]; cbn.
  - split; [|intros _ _];
      (destruct (fit m0 (gen w)) as [[[[]|e] m1] g1]; cbn; [|reflexivity];
       destruct (evaluate _ _ _ _) as [[b|e] g2]; cbn; [|reflexivity];
       destruct a; cbn; [|reflexivity];
       destruct (get_results _ _ _) as [[d|e] o1]; reflexivity).
  - split; [reflexivity|discriminate].
Qed.

(** X8.  The data flow of a [run] that returns: the surrogate is
    constructed from the configurations and standardized outcomes of the
    ResultSet as it stands before the call, with [self]'s settings and
    priors and the caller's optimizer arguments; that object is fitted;
    the acquisition function is evaluated on the fitted object and the
    same store; the batch it yields is both returned and stored as the
    proposed batch, and the fitted object stays in the model slot.  The
    store is asked for outcomes last, and only if [append] is set. *)
Theorem run_data_flow
  (a : bool) (nr : Z) (lr : num) (ti : Z) (w : world) (b : DataFrame)
  (w1 : world) :
  run a nr lr ti w = (Ok b, w1) ->
  let X := obj_X (obj (self w)) in
  let y := obj_y (obj (self w)) in
  let h := current_hyper (self w) nr lr ti in
  exists m0 m1 g1,
    construct (base_model (self w)) X y h = Ok m0 /\
    fit m0 (gen w) = (Ok tt, m1, g1) /\
    evaluate (acq (self w)) m1 (obj (self w)) g1 = (Ok b, gen w1) /\
    model (self w1) = ModelObject m1 /\
    proposed_experiments (self w1) = b /\
    log w1 = log w ++ [EvConstruct X y h; EvFit; EvEvaluate (obj (self w))]
                   ++ (if a then [EvGetResults (obj (self w)) b true] else []).
Proof.
  intros H. cbv zeta. unfold run in H.
  apply bind_inv_ok in H as (u1 & wa & Htrain & H).
  apply bind_inv_ok in H as (u2 & wb & Heval & H).
  apply bind_inv_ok in H as (u3 & wc & Hget & H).
  unfold read in H. inversion H; subst; clear H.
  apply train_model_ok in Htrain as (m0 & m1 & Hc & Hfit & Hsa & _ & Hla).
  apply call_evaluate_ok in Heval as (m & b & Hm & Hev & Hsb & _ & Hlb).
  rewrite Hsa in Hm, Hev, Hsb, Hlb. cbn in Hm, Hev, Hsb, Hlb.
  inversion Hm; subst m.
  exists m0, m1, (gen wa). split; [exact Hc|]. split; [exact Hfit|].
  destruct a.
  - apply call_get_results_ok in Hget as (delta & _ & Hsc & _ & Hg & Hlc).
    rewrite Hsb in Hsc, Hlc. cbn in Hsc, Hlc.
    rewrite Hsc, Hlc, Hlb, Hla, Hg. cbn.
    repeat split; auto. now rewrite <- !app_assoc.
  - unfold ret in Hget. inversion Hget; subst.
    rewrite Hsb, Hlb, Hla. cbn. repeat split; auto.
    now rewrite <- !app_assoc.
Qed.

(** X9.  When the store can resolve outcomes and keeps its contract, a
    [run(append=True)] that returns has put the outcomes of the returned
    batch at the end of the ResultSet, one row per configuration and in
    the batch's order; the rows that were there before are untouched and
    nothing else of the store has changed. *)
Theorem run_append_extends_results
  (nr : Z) (lr : num) (ti : Z) (w : world) (b : DataFrame) (w1 : world) :
  store_contract ->
  has_outcome_source (obj (self w)) = true ->
  run true nr lr ti w = (Ok b, w1) ->
  exists delta,
    map fst delta = b /\
    obj (self w1) =
      set_results (obj (self w)) (results (obj (self w)) ++ delta).
Proof.
  intros HS Hsrc H.
  apply run_ok in H as (m & g & g' & _ & _ & _ & _ & delta & Hg).
  apply HS in Hg as (Hfst & Ho); [|exact Hsrc].
  now exists delta.
Qed.

Lemma prior_object_carry p v : prior_object (carry p v) = prior_object p.
Proof. now destruct p as [[d v0]|]. Qed.

Lemma keeps_prior_objects_carry up i :
  keeps (fun w => prior_objects (self w)) (carry_priors up i).
Proof.
  intros w. rewrite carry_priors_run.
  destruct (_ && _); [|reflexivity].
  destruct (model (self w)); [reflexivity|]. cbn.
  unfold prior_objects. cbn. now rewrite !prior_object_carry.
Qed.

(** X17.  [simulate] never replaces a prior object: whatever its
    arguments, however many iterations run and whether it returns or
    raises, the first element of each prior specification is the one
    it was before the call, and a specification that was [None] has
    gained no prior object.  Carryover overwrites estimates only. *)
Theorem simulate_keeps_prior_objects
  (N : Z) (seed : option Z) (fc : pyval) (up : bool) (nr : Z) (lr : num)
  (ti : Z) (w : world) :
  prior_objects (self (snd (simulate N seed fc up nr lr ti w))) =
  prior_objects (self w).
Proof.
  assert (K : keeps (fun w => prior_objects (self w))
                (simulate N seed fc up nr lr ti)).
  { unfold simulate, for_range.
    apply keeps_bind; [now apply (keeps_init_sample prior_objects)|].
    intros _. apply keeps_for_from. intros i. unfold simulate_step.
    apply keeps_bind; [apply keeps_toggle_computation|].
    intros _. apply keeps_bind; [apply keeps_prior_objects_carry|].
    intros _. auto 8 with footprint. }
  apply K.
Qed.

(** *** [simulate]: the loop *)

Lemma simulate_step_appends fc up nr lr ti i w w1 :
  store_contract ->
  has_outcome_source (obj (self w)) = true ->
  simulate_step fc up nr lr ti i w = (Ok tt, w1) ->
  exists delta,
    map fst delta = proposed_experiments (self w1) /\
    obj (self w1) =
      set_results (obj (self w)) (results (obj (self w)) ++ delta).
Proof.
  intros HS Hsrc H. rewrite simulate_step_split in H.
  apply bind_inv_ok in H as (u & wd & Hup & H).
  pose proof (keeps_obj_upto_proposal fc up nr lr ti i w) as K.
  rewrite Hup in K. cbn in K.
  apply call_get_results_ok in H as (delta & Hg & Hs & _).
  rewrite K in Hg. apply HS in Hg as (Hfst & Ho); [|exact Hsrc].
  exists delta. split; [|exact Ho]. rewrite Hs. cbn. exact Hfst.
Qed.

Lemma for_from_simulate_appends fc up nr lr ti n :
  store_contract ->
  forall i w w1,
    has_outcome_source (obj (self w)) = true ->
    for_from i n (simulate_step fc up nr lr ti) w = (Ok tt, w1) ->
    exists appended,
      obj (self w1) =
        set_results (obj (self w)) (results (obj (self w)) ++ appended) /\
      (0 < n -> exists earlier delta,
         appended = earlier ++ delta /\
         map fst delta = proposed_experiments (self w1)).
Proof.
  intros HS. induction n as [|n IH]; intros i w w1 Hsrc H; cbn in H.
  - unfold ret in H. inversion H; subst. exists []. split; [|lia].
    rewrite app_nil_r. now destruct (obj (self w1)).
  - apply bind_inv_ok in H as ([] & wa & Hstep & H).
    apply (simulate_step_appends _ _ _ _ _ _ _ _ HS Hsrc) in Hstep
      as (d1 & Hf1 & Ho1).
    assert (Hsrc' : has_outcome_source (obj (self wa)) = true)
      by (now rewrite Ho1).
    destruct n as [|n].
    + cbn in H. unfold ret in H. inversion H; subst.
      exists d1. split; [exact Ho1|]. intros _. now exists [], d1.
    + apply IH in H as (app2 & Ho2 & Hlast); [|exact Hsrc'].
      destruct Hlast as (e & d & -> & Hd); [lia|].
      exists (d1 ++ e ++ d). split.
      * rewrite Ho2, Ho1. cbn. now rewrite <- !app_assoc.
      * intros _. exists (d1 ++ e), d. now rewrite <- app_assoc.
Qed.

(** X10.  When the store can resolve outcomes and keeps its contract, the
    loop of [simulate] only ever appends: in a call that returns, the
    ResultSet after the initialization is a prefix of the final one,
    nothing else of the store has changed, and, if at least one
    iteration ran, the final rows are the outcomes of the batch left in
    [proposed_experiments], in the batch's order. *)
Theorem simulate_only_appends
  (N : Z) (seed : option Z) (fc : pyval) (up : bool) (nr : Z) (lr : num)
  (ti : Z) (w w' : world) :
  store_contract ->
  has_outcome_source (obj (self w)) = true ->
  simulate N seed fc up nr lr ti w = (Ok tt, w') ->
  exists batch0 w0 appended,
    init_sample seed true None w = (Ok batch0, w0) /\
    obj (self w') =
      set_results (obj (self w0)) (results (obj (self w0)) ++ appended) /\
    ((1 <= N)%Z -> exists earlier delta,
       appended = earlier ++ delta /\
       map fst delta = proposed_experiments (self w')).
Proof.
  intros HS Hsrc H. unfold simulate, for_range in H.
  apply bind_inv_ok in H as (batch0 & w0 & Hinit & H).
  assert (Hsrc0 : has_outcome_source (obj (self w0)) = true).
  { apply init_sample_ok in Hinit as (_ & _ & Hobj).
    destruct (String.eqb _ _).
    - now rewrite Hobj.
    - destruct Hobj as (delta & Hg).
      apply HS in Hg as (_ & Ho); [|exact Hsrc]. now rewrite Ho. }
  apply for_from_simulate_appends in H as (appended & Ho & Hlast); auto.
  exists batch0, w0, appended. repeat split; auto.
  intros HN. apply Hlast. lia.
Qed.

Lemma bind_assoc {A B D} (m : M A) (f : A -> M B) (k : B -> M D) w :
  bind (bind m f) k w = bind m (fun a => bind (f a) k) w.
Proof. unfold bind. now destruct (m w) as [[a|e] w1]. Qed.

Lemma for_from_snoc (body : nat -> M unit) n :
  forall i w,
    for_from i (S n) body w =
      bind (for_from i n body) (fun _ => body (i + n)) w.
Proof.
  induction n as [|n IH]; intros i w.
  - cbn. unfold bind, ret. rewrite Nat.add_0_r.
    now destruct (body i w) as [[[]|e] w1].
  - change (bind (body i) (fun _ => for_from (S i) (S n) body) w =
            bind (bind (body i) (fun _ => for_from (S i) n body))
                 (fun _ => body (i + S n)) w).
    rewrite bind_assoc.
    destruct (body i w) as [[u|e] w1] eqn:Hb.
    + rewrite !(bind_ok _ _ _ _ _ Hb). rewrite IH.
      now rewrite Nat.add_succ_r.
    + now rewrite !(bind_err _ _ _ _ _ Hb).
Qed.

(** X11.  [simulate] with no iterations to run (zero or a negative
    count) does what [init_sample(seed, append=True)] does and nothing
    more: no surrogate is built and no error is raised for the count. *)
Theorem simulate_without_iterations
  (N : Z) (seed : option Z) (fc : pyval) (up : bool) (nr : Z) (lr : num)
  (ti : Z) (w : world) :
  (N <= 0)%Z ->
  simulate N seed fc up nr lr ti w = (init_sample seed true None ;; ret tt) w.
Proof.
  intros HN. unfold simulate, for_range.
  assert (Z.to_nat N = 0) as -> by lia. reflexivity.
Qed.

(** X12.  One more iteration is one more pass through the loop body:
    [simulate(iterations=N+1)] does what [simulate(iterations=N)] does
    and then, if that returned, runs the body once more with index [N];
    every earlier iteration proceeds as it would in the shorter run. *)
Theorem simulate_one_more_iteration
  (N : Z) (seed : option Z) (fc : pyval) (up : bool) (nr : Z) (lr : num)
  (ti : Z) (w : world) :
  (0 <= N)%Z ->
  simulate (N + 1) seed fc up nr lr ti w =
    (simulate N seed fc up nr lr ti ;;
     simulate_step fc up nr lr ti (Z.to_nat N)) w.
Proof.
  intros HN. unfold simulate, for_range.
  assert (Z.to_nat (N + 1) = S (Z.to_nat N)) as -> by lia.
  rewrite bind_assoc.
  destruct (init_sample seed true None w) as [[b0|e] w0] eqn:Hi.
  - rewrite !(bind_ok _ _ _ _ _ Hi). apply for_from_snoc.
  - now rewrite !(bind_err _ _ _ _ _ Hi).
Qed.

(** *** No stale surrogate *)

Lemma init_sample_blind seed a ep w x :
  init_sample seed a ep (with_model w x) =
    (fst (init_sample seed a ep w), with_model (snd (init_sample seed a ep w)) x).
Proof.
  unfold init_sample, call_clear_results, call_init_run, call_get_results,
    with_model, bind, read, ret, emit, assign, with_gen. cbn.
  destruct (String.eqb _ _); cbn;
    destruct (Init_run _ _ _ _ _) as [[b|e] g']; cbn; try reflexivity;
    rewrite ?andb_false_r, ?andb_true_r; try reflexivity;
    destruct a; cbn; try reflexivity;
    destruct (get_results _ _ _) as [[d|e] o']; reflexivity.
Qed.

Lemma toggle_computation_blind fc w x :
  toggle_computation fc (with_model w x) =
    (Ok tt, with_model (snd (toggle_computation fc w)) x).
Proof.
  unfold toggle_computation.
  destruct (py_eq fc (PyBool true)); [reflexivity|].
  destruct (py_eq fc (PyBool false)); [reflexivity|].
  unfold bind, read. cbn.
  now destruct (py_lt_len fc _).
Qed.

Lemma carry_priors_first up w : carry_priors up 0 w = (Ok tt, w).
Proof. rewrite carry_priors_run. now destruct up. Qed.

Lemma simulate_first_step_resets_model fc up nr lr ti w x :
  let A := simulate_step fc up nr lr ti 0 (with_model w x) in
  let B := simulate_step fc up nr lr ti 0 w in
  A = B \/
  exists e, fst A = Err e /\ fst B = Err e /\
            forall y, with_model (snd A) y = with_model (snd B) y.
Proof.
  cbv zeta. unfold simulate_step.
  destruct (toggle_computation_run fc w) as (w0 & Ht & _).
  rewrite (bind_ok _ _ _ _ _ (toggle_computation_blind fc w x)).
  rewrite (bind_ok _ _ _ _ _ Ht). rewrite Ht. cbn [snd].
  rewrite !(bind_ok _ _ _ _ _ (carry_priors_first up _)).
  unfold train_model, call_fit, call_evaluate, call_get_results,
    current_hyper, with_model, bind, read, emit, lift_result, assign,
    with_gen, raise, ret. cbn.
  destruct (construct _ _ _ _) as [m0|e]; cbn.
  - left. reflexivity.
  - right. exists e. repeat split.
Qed.

(** X18.  [simulate] never uses a surrogate left in the model slot by an
    earlier call.  Whatever the slot holds when the call starts, the
    call has the same outcome and leaves the same state apart from the
    slot; and once an iteration has run to its end the slot too is the
    same, so a call with at least one iteration that returns leaves
    entirely the same state. *)
Theorem simulate_ignores_previous_model
  (N : Z) (seed : option Z) (fc : pyval) (up : bool) (nr : Z) (lr : num)
  (ti : Z) (w : world) (x : model_slot) :
  let A := simulate N seed fc up nr lr ti (with_model w x) in
  let B := simulate N seed fc up nr lr ti w in
  fst A = fst B /\
  (forall y, with_model (snd A) y = with_model (snd B) y) /\
  ((1 <= N)%Z -> fst B = Ok tt -> snd A = snd B).
Proof.
  cbv zeta. unfold simulate, for_range.
  pose proof (init_sample_blind seed true None w x) as Hi.
  destruct (init_sample seed true None w) as [[b0|e] w0] eqn:Hw;
    cbn [fst snd] in Hi.
  2:{ rewrite (bind_err _ _ _ _ _ Hi), (bind_err _ _ _ _ _ Hw). cbn.
      repeat split. discriminate. }
  rewrite (bind_ok _ _ _ _ _ Hi), (bind_ok _ _ _ _ _ Hw).
  destruct (Z.to_nat N) as [|n] eqn:EN.
  { cbn. repeat split. lia. }
  cbn [for_from].
  pose proof (simulate_first_step_resets_model fc up nr lr ti w0 x) as H.
  cbv zeta in H. destruct H as [H|(e & HA & HB & HR)].
  - unfold bind. rewrite H. repeat split.
  - unfold bind.
    destruct (simulate_step fc up nr lr ti 0 (with_model w0 x)) as [rA wA].
    destruct (simulate_step fc up nr lr ti 0 w0) as [rB wB].
    cbn in HA, HB, HR. subst rA rB. cbn. repeat split; auto. discriminate.
Qed.

(** *** [init_sample] and [clear_results] *)

(** X13.  With a method other than 'external', [init_sample] and
    [simulate] start from scratch: whatever the ResultSet held before
    the call has no influence on the outcome or on the state they
    leave. *)
Theorem initialization_forgets_results
  (r : list observation) (w : world) :
  String.eqb (method (init_seq (self w))) "external" = false ->
  (forall seed a ep,
     init_sample seed a ep (with_results w r) = init_sample seed a ep w) /\
  (forall N seed fc up nr lr ti,
     simulate N seed fc up nr lr ti (with_results w r) =
     simulate N seed fc up nr lr ti w).
Proof.
  intros E.
  assert (Hinit : forall seed a ep,
            init_sample seed a ep (with_results w r) = init_sample seed a ep w).
  { intros seed a ep.
    unfold init_sample, call_clear_results, call_init_run, call_get_results,
      with_results, bind, read, ret, emit, assign, with_gen. cbn.
    rewrite E. cbn. reflexivity. }
  split; [exact Hinit|].
  intros. unfold simulate, bind. now rewrite Hinit.
Qed.

(** X14.  [clear_results] empties the ResultSet and touches nothing
    else; clearing twice leaves the object as clearing once does; and
    before an [init_sample] with a method other than 'external' it is
    redundant: the initialization returns the same batch and leaves the
    same object, switch and random state with or without it. *)
Theorem clear_results_effect (w : world) :
  self (snd (clear_results w)) =
    set_obj (self w) (set_results (obj (self w)) []) /\
  self (snd ((clear_results ;; clear_results) w)) = self (snd (clear_results w)) /\
  (String.eqb (method (init_seq (self w))) "external" = false ->
   forall seed a ep,
     let direct := init_sample seed a ep w in
     let cleared := (clear_results ;; init_sample seed a ep) w in
     fst cleared = fst direct /\
     self (snd cleared) = self (snd direct) /\
     fast_mode (snd cleared) = fast_mode (snd direct) /\
     gen (snd cleared) = gen (snd direct)).
Proof.
  split; [reflexivity|]. split; [reflexivity|].
  intros E seed a ep. cbv zeta.
  unfold clear_results, init_sample, call_clear_results, call_init_run,
    call_get_results, bind, read, ret, emit, assign, with_gen. cbn.
  rewrite E. cbn.
  destruct (Init_run _ _ _ _ _) as [[b|e] g'] eqn:R; cbn; auto.
  rewrite andb_true_r. destruct a; cbn; auto.
  destruct (get_results _ _ _) as [[d|e] o']; cbn; auto.
Qed.

(** X15.  When the initialization scheme raises, [init_sample] raises
    the same error and keeps the batch proposed before, the model slot
    and the priors; but with a method other than 'external' the
    ResultSet has already been emptied, and stays empty. *)
Theorem init_sample_failed_sampling
  (seed : option Z) (a : bool) (ep : option string) (w : world)
  (e : error) (g' : rng) :
  let external := String.eqb (method (init_seq (self w))) "external" in
  let seen := if external then obj (self w)
              else obj_clear_results (obj (self w)) in
  Init_run (init_seq (self w)) seen seed ep (gen w) = (Err e, g') ->
  let w' := snd (init_sample seed a ep w) in
  fst (init_sample seed a ep w) = Err e /\
  obj (self w') = seen /\
  proposed_experiments (self w') = proposed_experiments (self w) /\
  model (self w') = model (self w) /\
  priors (self w') = priors (self w) /\
  count is_get_results (skipn (List.length (log w)) (log w')) = 0.
Proof.
  cbv zeta.
  unfold init_sample, call_clear_results, call_init_run, call_get_results,
    bind, read, ret, emit, assign, with_gen. cbn.
  destruct (String.eqb (method (init_seq (self w))) "external") eqn:E; cbn;
    intros R; rewrite R; cbn; repeat split;
    rewrite <- ?app_assoc, skipn_app, skipn_all, Nat.sub_diag; reflexivity.
Qed.

(** *** [best] on a small table *)

(** X16.  With at least one and at most five results, [best] returns
    the whole ResultSet, rearranged in descending order of outcome (given
    that [sort_values] sorts), and changes nothing. *)
Theorem best_returns_all_of_a_small_table (w : world) :
  sort_contract ->
  results (obj (self w)) <> [] ->
  List.length (results (obj (self w))) <= 5 ->
  exists rows,
    best w = (Ok rows, w) /\
    Permutation (results (obj (self w))) rows /\
    Sorted descending rows.
Proof.
  intros HS Hne Hlen.
  destruct (HS (results (obj (self w)))) as (HP & Hsorted).
  exists (sort_values (results (obj (self w))) false).
  split; [|now split].
  rewrite best_run, firstn_all2 by (now rewrite <- (Permutation_length HP)).
  destruct (results (obj (self w))); [now destruct Hne|reflexivity].
Qed.

End Further.

(** ** The laboratory keeps the contracts *)

Section LabContracts.
Import Lab.
Variable strict : bool.

Lemma lab_acquisition_contract : acquisition_contract (C := lab strict).
Proof.
  intros a m o g b g'. cbn. unfold lab_evaluate.
  destruct (Nat.ltb_spec (List.length (lab_eligible a o)) (acq_batch_size a))
    as [Hlt|Hge]; [discriminate|].
  intros H. inversion H; subst; clear H. split.
  - rewrite length_firstn. lia.
  - intros Hd c Hc Hin.
    assert (Hel : In c (lab_eligible a o)).
    { rewrite <- (firstn_skipn (acq_batch_size a)). apply in_or_app. now left. }
    unfold lab_eligible in Hel. rewrite Hd in Hel.
    apply filter_In in Hel as (_ & Hneg).
    apply negb_true_iff in Hneg.
    assert (Hex : existsb (Z.eqb c) (map fst (results o)) = true).
    { apply existsb_exists. exists c. split; [exact Hin|apply Z.eqb_refl]. }
    congruence.
Qed.

Lemma lab_resolve_fst f b : forall delta,
  lab_resolve f b = Some delta -> map fst delta = b.
Proof.
  induction b as [|c b IH]; cbn; intros delta H.
  - now inversion H.
  - destruct (f c) as [r|]; [|discriminate].
    destruct (lab_resolve f b) as [rs|]; [|discriminate].
    inversion H; subst. cbn. f_equal. now apply IH.
Qed.

Lemma lab_store_contract : store_contract (C := lab strict).
Proof.
  intros o b delta o' Hsrc. cbn. unfold lab_get_results. rewrite Hsrc.
  destruct (lab_resolve _ b) as [d|] eqn:R; [|discriminate].
  intros H. inversion H; subst; clear H.
  split; [|reflexivity]. now apply lab_resolve_fst in R.
Qed.

Lemma lab_insert_perm x l : Permutation (x :: l) (lab_insert x l).
Proof.
  induction l as [|y l IH]; cbn; [reflexivity|].
  destruct (Z.leb _ _); [reflexivity|].
  rewrite perm_swap. now constructor.
Qed.

Lemma lab_insert_sorted x l :
  Sorted (descending (T := lab_types)) l ->
  Sorted (descending (T := lab_types)) (lab_insert x l).
Proof.
  induction 1 as [|y l HS IH HR]; cbn.
  - repeat constructor.
  - destruct (Z.leb_spec (@snd Z Z y) (@snd Z Z x)) as [Hle|Hgt].
    + constructor; [now constructor|].
      constructor. unfold descending. cbn. now apply Z.leb_le.
    + constructor; [exact IH|].
      destruct HR as [|z l' Hz]; cbn.
      * constructor. unfold descending. cbn. apply Z.leb_le. lia.
      * destruct (Z.leb _ _); constructor; auto.
        unfold descending. cbn. apply Z.leb_le. lia.
Qed.

Lemma lab_sort_contract : sort_contract (C := lab strict).
Proof.
  intros l. cbn. unfold lab_sort_values. split.
  - induction l as [|x l IH]; cbn; [constructor|].
    rewrite <- lab_insert_perm. now constructor.
  - induction l as [|x l IH]; cbn; [constructor|].
    now apply lab_insert_sorted.
Qed.

Lemma lab_insert_filter (z x : Z * Z) (l : list (Z * Z)) :
  let p := fun r : Z * Z => Z.leb (snd r) (snd z) && Z.leb (snd z) (snd r) in
  filter p (lab_insert x l) = filter p (x :: l).
Proof.
  cbv zeta. induction l as [|y l IH]; [reflexivity|].
  change (lab_insert x (y :: l))
    with (if Z.leb (snd y) (snd x) then x :: y :: l else y :: lab_insert x l).
  destruct (Z.leb_spec (snd y) (snd x)) as [Hle|Hgt]; [reflexivity|].
  cbn [filter]. rewrite IH. cbn [filter].
  destruct (Z.leb_spec (snd x) (snd z)), (Z.leb_spec (snd z) (snd x)),
           (Z.leb_spec (snd y) (snd z)), (Z.leb_spec (snd z) (snd y));
    cbn; try reflexivity; lia.
Qed.

Lemma lab_keeps_tied_rows_in_order : keeps_tied_rows_in_order (C := lab strict).
Proof.
  intros l z. unfold tied. cbn. unfold lab_sort_values.
  induction l as [|x l IH]; [reflexivity|].
  cbn [fold_right]. rewrite (lab_insert_filter z x). cbn [filter].
  now rewrite IH.
Qed.

End LabContracts.

(** ** The driver at work in the laboratory *)

Import Lab.

(** [simulate(iterations=2)] on six domain points with batches of two:
    the initial batch and two more are appended. *)
Lemma simulate_result_size_witness :
  let w' := snd (simulate (C := lab true) 2 None (PyBool false) true 0 0%Z 100
                          sim_world) in
  exists batch0 w0,
    init_sample (C := lab true) None true None sim_world = (Ok batch0, w0) /\
    (if String.eqb (method (init_seq (self sim_world))) "external"
     then results (obj (self w0)) = results (obj (self sim_world))
     else map fst (results (obj (self w0))) = batch0) /\
    List.length (results (obj (self w'))) =
      List.length (results (obj (self w0)))
      + Z.to_nat 2 * batch_size (self sim_world) /\
    exists new, log w' = log w0 ++ new /\
      count is_fit new = Z.to_nat 2 /\
      count is_evaluate new = Z.to_nat 2 /\
      count is_append new = Z.to_nat 2.
Proof.
  cbv zeta.
  apply (simulate_result_size (C := lab true) 2 None (PyBool false) true 0 0%Z
           100 sim_world).
  - apply lab_acquisition_contract.
  - apply lab_store_contract.
  - repeat split.
  - reflexivity.
  - vm_compute. reflexivity.
Defined.

(** [run(append=True)] on a ResultSet of two rows proposes and appends
    two new configurations. *)
Lemma run_append_grows_by_batch_size_witness :
  let r := run (C := lab true) true 0 0%Z 100 run_world in
  fst r = Ok [2; 3]%Z /\
  (List.length (results (obj (self (snd r)))) =
     List.length (results (obj (self run_world))) + batch_size (self run_world) /\
   List.length [2; 3]%Z = batch_size (self run_world) /\
   (duplicate_experiments (self run_world) = false ->
    forall c, In c [2; 3]%Z ->
              ~ In c (map fst (results (obj (self run_world)))))).
Proof.
  cbv zeta. split; [vm_compute; reflexivity|].
  apply (run_append_grows_by_batch_size (C := lab true) 0 0%Z 100 run_world).
  - apply lab_acquisition_contract.
  - apply lab_store_contract.
  - repeat split.
  - reflexivity.
  - vm_compute. reflexivity.
Defined.

(** Without an outcome source, method 'rand', and a store that raises
    when it cannot resolve outcomes: the error of [simulate] is that of
    the store, raised after the ResultSet was cleared and the batch
    [0; 1] sampled. *)
Lemma simulate_without_outcome_source_witness :
  exists w',
    simulate (C := lab true) 2 None (PyBool false) false 0 0%Z 100
             no_source_world = (Err MissingObjectiveError, w') /\
    obj (self w') = obj_clear_results (obj (self no_source_world)) /\
    proposed_experiments (self w') = [0; 1]%Z /\
    model (self w') = model (self no_source_world) /\
    log w' = log no_source_world ++
             [EvClearResults;
              EvInitRun (obj_clear_results (obj (self no_source_world)));
              EvGetResults (obj_clear_results (obj (self no_source_world)))
                           [0; 1]%Z true].
Proof.
  apply (proj1 (proj2 (proj1 (simulate_without_outcome_source (C := lab true)
                                2 None (PyBool false) false 0 0%Z 100
                                no_source_world)
                             eq_refl [0; 1]%Z 1 eq_refl))).
  reflexivity.
Defined.


(** C2, counterexample.  A BO without computational objective and
    experiment index, holding one earlier result.  With method 'rand'
    and a store that raises when it cannot resolve outcomes, the call
    fails only after the initialization has cleared the ResultSet and
    sampled the batch [0; 1]; with a store that hands the candidates
    back unresolved, the same call clears and samples as well and then
    fails with [EmptyDataError], when the first surrogate is built on
    the emptied ResultSet.  With method 'external' no call fails before
    its initialization either: without iterations it returns with
    either store, and with the second store two full iterations run and
    the call returns. *)
Lemma simulate_initializes_before_refusal :
  has_outcome_source (obj (self no_source_world)) = false /\
  results (obj (self no_source_world)) = [(5, 9)]%Z /\
  (let r := simulate (C := lab true) 2 None (PyBool false) false 0 0%Z 100
                     no_source_world in
   fst r = Err MissingObjectiveError /\
   results (obj (self (snd r))) = [] /\
   proposed_experiments (self (snd r)) = [0; 1]%Z /\
   map event_name (log (snd r)) =
     ["fast_computation(False)"; "obj.clear_results"; "init_seq.run";
      "obj.get_results(append=True)"]) /\
  (let r := simulate (C := lab false) 2 None (PyBool false) false 0 0%Z 100
                     no_source_world in
   fst r = Err EmptyDataError /\
   results (obj (self (snd r))) = [] /\
   proposed_experiments (self (snd r)) = [0; 1]%Z /\
   map event_name (log (snd r)) =
     ["fast_computation(False)"; "obj.clear_results"; "init_seq.run";
      "obj.get_results(append=True)"; "fast_computation(False)";
      "base_model"]) /\
  has_outcome_source (obj (self external_no_source_world)) = false /\
  fst (simulate (C := lab true) 0 None (PyBool false) false 0 0%Z 100
                external_no_source_world) = Ok tt /\
  fst (simulate (C := lab false) 0 None (PyBool false) false 0 0%Z 100
                external_no_source_world) = Ok tt /\
  (let r := simulate (C := lab false) 2 None (PyBool false) false 0 0%Z 100
                     external_no_source_world in
   fst r = Ok tt /\
   results (obj (self (snd r))) = [(5, 9)]%Z /\
   count is_fit (log (snd r)) = 2).
Proof. cbv zeta. repeat split; vm_compute; reflexivity. Qed.

(** C6, counterexample.  [simulate(iterations=3, update_priors=True)] on
    six domain points with batches of two starts from an empty
    ResultSet and fails in its third iteration, when acquisition finds
    no candidate left: the three batches appended before and the
    carried prior estimates stay. *)
Lemma simulate_failure_keeps_appended_batches :
  results (obj (self sim_world)) = [] /\
  priors (self sim_world) =
    (Some (Some "GammaPrior(2.0, 0.2)", 5%Z),
     Some (Some "GammaPrior(5.0, 0.5)", 8%Z), None) /\
  (let r := simulate (C := lab true) 3 None (PyBool false) true 0 0%Z 100
                     sim_world in
   fst r = Err InsufficientCandidatesError /\
   results (obj (self (snd r))) =
     [(0, -9); (1, -4); (2, -1); (3, 0); (4, -1); (5, -4)]%Z /\
   priors (self (snd r)) =
     (Some (Some "GammaPrior(2.0, 0.2)", 11%Z),
      Some (Some "GammaPrior(5.0, 0.5)", 4%Z), Some (None, 1%Z))).
Proof. cbv zeta. repeat split; vm_compute; reflexivity. Qed.

(** C7, counterexample.  On a freshly constructed BO, with no batch
    proposed, [acquisition_summary] raises [TypeError], not
    [NoProposalError]; it does the same after [init_sample] has proposed
    the batch [0; 1]. *)
Lemma acquisition_summary_before_proposal :
  proposed_experiments (self sim_world) = [] /\
  acquisition_summary (C := lab true) sim_world = (Err TypeError, sim_world) /\
  (let r := (init_sample (C := lab true) None false None ;;
             acquisition_summary (C := lab true)) sim_world in
   fst r = Err TypeError /\
   proposed_experiments (self (snd r)) = [0; 1]%Z).
Proof. cbv zeta. repeat split. Qed.


(** Eighteen rows entered in the order 0, 1, ..., 17 with the same
    outcome: in the laboratory, whose sort keeps rows with equal
    outcomes in order, [best] lists rows 0 to 4. *)
Example best_on_equal_outcomes_in_lab :
  keeps_tied_rows_in_order (C := lab true) /\
  map fst (results_input (obj (self ties_world))) = map Z.of_nat (seq 0 18) /\
  fst (best (C := lab true) ties_world) =
    Ok [(0, 0); (1, 0); (2, 0); (3, 0); (4, 0)]%Z.
Proof.
  split; [apply lab_keeps_tied_rows_in_order|]. split; vm_compute; reflexivity.
Qed.

(** C4 at work: constructed with [fast_comp=True], the BO is run with
    [simulate(iterations=1, fast_comp=0)].  When the iteration decides
    the mode the ResultSet holds two rows, more than the threshold 0,
    and the switch is turned off. *)
Example simulate_threshold_zero_turns_fast_mode_off :
  let w0 := snd (init_sample (C := lab true) None true None fast_world) in
  let r := simulate (C := lab true) 1 None (PyInt 0) false 0 0%Z 100
                    fast_world in
  fast_mode w0 = true /\
  List.length (obj_y (C := lab true) (obj (self w0))) = 2 /\
  fst r = Ok tt /\
  fast_mode (snd r) = false /\
  map event_name (log (snd r)) =
    ["fast_computation(True)"; "obj.clear_results"; "init_seq.run";
     "obj.get_results(append=True)"; "fast_computation(False)";
     "base_model"; "model.fit"; "acq.evaluate";
     "obj.get_results(append=True)"].
Proof. cbv zeta. repeat split. Qed.

(** Prior carryover at work: a single iteration has index 0 and carries
    nothing; the second of two iterations takes over the estimates of
    the model fitted by the first on two rows; nothing is carried
    without [update_priors] or for a base model that is not a GP. *)
Example simulate_carries_priors_in_lab :
  let after (N : Z) (up : bool) (w : world) :=
    priors (self (snd (simulate (C := lab true) N None (PyBool false) up
                                0 0%Z 100 w))) in
  after 1%Z true sim_world = priors (self sim_world) /\
  after 2%Z true sim_world =
    (Some (Some "GammaPrior(2.0, 0.2)", 7%Z),
     Some (Some "GammaPrior(5.0, 0.5)", 2%Z), Some (None, 1%Z)) /\
  after 2%Z false sim_world = priors (self sim_world) /\
  after 2%Z true forest_world = priors (self forest_world).
Proof. cbv zeta. repeat split. Qed.

(** [init_sample] at work: with 'rand' the two earlier results are gone
    whether or not the batch is appended; with 'external' the store
    stays as it was, also under [append=True], and the configurations
    given from outside come back. *)
Example init_sample_in_lab :
  let after (a : bool) (w : world) :=
    let r := init_sample (C := lab true) None a None w in
    (fst r, results (obj (self (snd r))), map event_name (log (snd r))) in
  after false run_world =
    (Ok [0; 1]%Z, [],
     ["fast_computation(False)"; "obj.clear_results"; "init_seq.run"]) /\
  after true run_world =
    (Ok [0; 1]%Z, [(0, -9); (1, -4)]%Z,
     ["fast_computation(False)"; "obj.clear_results"; "init_seq.run";
      "obj.get_results(append=True)"]) /\
  after true external_world =
    (Ok [4; 2]%Z, [(4, -1); (2, -1)]%Z,
     ["fast_computation(False)"; "init_seq.run"]).
Proof. cbv zeta. repeat split. Qed.

(** ** Further runs in the laboratory *)

(** Two iterations without [update_priors]. *)
Lemma simulate_without_carryover_keeps_priors_witness :
  priors (self (snd (simulate (C := lab true) 2 None (PyBool false) false
                              0 0%Z 100 sim_world))) =
  priors (self sim_world).
Proof.
  apply (simulate_without_carryover_keeps_priors (C := lab true) 2 None
           (PyBool false) false 0 0%Z 100 sim_world).
  reflexivity.
Defined.

(** A BO constructed with [fast_comp=True], simulated with the integer
    threshold 5, which the four results never exceed. *)
Lemma simulate_never_switches_fast_mode_off_witness :
  fast_mode (snd (simulate (C := lab true) 1 None (PyInt 5) false 0 0%Z 100
                           fast_world)) = true.
Proof.
  apply (simulate_never_switches_fast_mode_off (C := lab true) 1 None
           (PyInt 5) false 0 0%Z 100 fast_world).
  - discriminate.
  - reflexivity.
Defined.

(** The same BO simulated with [fast_comp=False]. *)
Lemma simulate_boolean_sets_switch_witness :
  fast_mode (snd (simulate (C := lab true) 1 None (PyBool false) false
                           0 0%Z 100 fast_world)) = false.
Proof.
  apply (simulate_boolean_sets_switch (C := lab true) 1 None false false
           0 0%Z 100 fast_world [0; 1]%Z
           (snd (init_sample (C := lab true) None true None fast_world))).
  - lia.
  - vm_compute. reflexivity.
Defined.

(** [run(append=True)] on two results. *)
Lemma run_data_flow_witness :
  let w := run_world in
  let w1 := snd (run (C := lab true) true 0 0%Z 100 run_world) in
  let X := obj_X (obj (self w)) in
  let y := obj_y (C := lab true) (obj (self w)) in
  let h := current_hyper (self w) 0 0%Z 100 in
  exists m0 m1 g1,
    construct (Collaborators := lab true) (base_model (self w)) X y h = Ok m0 /\
    fit (Collaborators := lab true) m0 (gen w) = (Ok tt, m1, g1) /\
    evaluate (Collaborators := lab true) (acq (self w)) m1 (obj (self w)) g1
      = (Ok [2; 3]%Z, gen w1) /\
    model (self w1) = ModelObject m1 /\
    proposed_experiments (self w1) = [2; 3]%Z /\
    log w1 = log w ++ [EvConstruct X y h; EvFit; EvEvaluate (obj (self w))]
                   ++ [EvGetResults (obj (self w)) [2; 3]%Z true].
Proof.
  cbv zeta.
  apply (run_data_flow (C := lab true) true 0 0%Z 100 run_world [2; 3]%Z).
  vm_compute. reflexivity.
Defined.

Lemma run_append_extends_results_witness :
  exists delta,
    map fst delta = [2; 3]%Z /\
    obj (self (snd (run (C := lab true) true 0 0%Z 100 run_world))) =
      set_results (obj (self run_world))
                  (results (obj (self run_world)) ++ delta).
Proof.
  apply (run_append_extends_results (C := lab true) 0 0%Z 100 run_world).
  - apply lab_store_contract.
  - reflexivity.
  - vm_compute. reflexivity.
Defined.

Lemma simulate_only_appends_witness :
  let w' := snd (simulate (C := lab true) 2 None (PyBool false) true 0 0%Z 100
                          sim_world) in
  exists batch0 w0 appended,
    init_sample (C := lab true) None true None sim_world = (Ok batch0, w0) /\
    obj (self w') =
      set_results (obj (self w0)) (results (obj (self w0)) ++ appended) /\
    ((1 <= 2)%Z -> exists earlier delta,
       appended = earlier ++ delta /\
       map fst delta = proposed_experiments (self w')).
Proof.
  cbv zeta.
  apply (simulate_only_appends (C := lab true) 2 None (PyBool false) true
           0 0%Z 100 sim_world).
  - apply lab_store_contract.
  - reflexivity.
  - vm_compute. reflexivity.
Defined.

(** [simulate(iterations=-1)]. *)
Lemma simulate_without_iterations_witness :
  simulate (C := lab true) (-1) None (PyBool false) true 0 0%Z 100 sim_world =
  (init_sample (C := lab true) None true None ;; ret tt) sim_world.
Proof.
  apply (simulate_without_iterations (C := lab true) (-1) None (PyBool false)
           true 0 0%Z 100 sim_world).
  lia.
Defined.

Lemma simulate_one_more_iteration_witness :
  simulate (C := lab true) (1 + 1) None (PyBool false) true 0 0%Z 100 sim_world =
  (simulate (C := lab true) 1 None (PyBool false) true 0 0%Z 100 ;;
   simulate_step (C := lab true) (PyBool false) true 0 0%Z 100 (Z.to_nat 1))
    sim_world.
Proof.
  apply (simulate_one_more_iteration (C := lab true) 1 None (PyBool false)
           true 0 0%Z 100 sim_world).
  lia.
Defined.

(** The two results of [run_world] replaced by others. *)
Lemma initialization_forgets_results_witness :
  (forall seed a ep,
     init_sample (C := lab true) seed a ep
                 (with_results run_world [(5, 100)]%Z) =
     init_sample (C := lab true) seed a ep run_world) /\
  (forall N seed fc up nr lr ti,
     simulate (C := lab true) N seed fc up nr lr ti
              (with_results run_world [(5, 100)]%Z) =
     simulate (C := lab true) N seed fc up nr lr ti run_world).
Proof.
  apply (initialization_forgets_results (C := lab true) [(5, 100)]%Z run_world).
  reflexivity.
Defined.

(** Seven points cannot be drawn from six: the scheme raises after the
    one earlier result has been cleared. *)
Lemma init_sample_failed_sampling_witness :
  let w' := snd (init_sample (C := lab true) None true None crowded_world) in
  fst (init_sample (C := lab true) None true None crowded_world)
    = Err InitializationError /\
  obj (self w') = obj_clear_results (obj (self crowded_world)) /\
  proposed_experiments (self w') = proposed_experiments (self crowded_world) /\
  model (self w') = model (self crowded_world) /\
  priors (self w') = priors (self crowded_world) /\
  count is_get_results (skipn (List.length (log crowded_world)) (log w')) = 0.
Proof.
  cbv zeta.
  apply (init_sample_failed_sampling (C := lab true) None true None
           crowded_world InitializationError 0).
  reflexivity.
Defined.

(** [best] on the two rows of [run_world]: both come back, the better
    one first. *)
Lemma best_returns_all_of_a_small_table_witness :
  fst (best (C := lab true) run_world) = Ok [(1, -4); (0, -9)]%Z /\
  exists rows,
    best (C := lab true) run_world = (Ok rows, run_world) /\
    Permutation (results (obj (self run_world))) rows /\
    Sorted descending rows.
Proof.
  split; [vm_compute; reflexivity|].
  apply (best_returns_all_of_a_small_table (C := lab true) run_world).
  - apply lab_sort_contract.
  - intros H. vm_compute in H. discriminate H.
  - cbn. lia.
Defined.
